(** * Fault-to-exception translation layer (vm/core/src/signal.c)

    A shallow embedding of the signal subsystem of the runtime core:
    [rvmInitSignals], [installSignalHandlers], [rvmSetupSignals],
    [rvmRestoreSignalMask], [rvmTearDownSignals], [getFramePointer], [getPC]
    and [signalHandler].

    The C functions are written as programs over the calls they make to the
    C library and to the rest of the runtime (type [Call], programs [Prog]).
    A [World] describes the process, the calling thread and the runtime
    state those calls act upon; [run] executes a program in a world and
    yields the list of calls made together with the way the program ended. *)

From Stdlib Require Import ZArith Lia Bool List String.
From stdpp Require Import base option gmap list strings.
Import ListNotations.

#[local] Open Scope Z_scope.

(** ** Machine-level data *)

(** All supported targets (x86 and ARM Thumb-2) have 32-bit pointers.  A
    pointer is its address, an integer in [0, 2^32); [NULL] is address 0. *)
Definition ptr_bits : Z := 32.
Definition ptr_modulus : Z := 2 ^ ptr_bits.
Definition NULL : Z := 0.

Definition is_ptr (p : Z) : Prop := 0 <= p < ptr_modulus.

(** Byte arithmetic on a void pointer (GNU C), wrapping at the pointer
    width. *)
Definition ptr_sub (p n : Z) : Z := (p - n) mod ptr_modulus.

(** The cast of a 32-bit register value [r] to a pointer (through
    [ptrdiff_t]). *)
Definition reg_to_ptr (r : Z) : Z := r mod ptr_modulus.

(** The (OS family, CPU architecture) pairs for which signal.c has code. *)
Inductive Target : Set := Darwin_X86 | Darwin_THUMBV7 | Linux_X86.

Definition DARWIN (t : Target) : bool :=
  match t with Darwin_X86 | Darwin_THUMBV7 => true | Linux_X86 => false end.

(** Constants of <signal.h> on the two OS families. *)
Definition SIGSEGV : Z := 11.
Definition SIGBUS (t : Target) : Z := if DARWIN t then 10 else 7.
Definition SA_ONSTACK (t : Target) : Z := if DARWIN t then 0x0001 else 0x08000000.
Definition SA_SIGINFO (t : Target) : Z := if DARWIN t then 0x0040 else 0x0004.
Definition SIG_BLOCK (t : Target) : Z := if DARWIN t then 1 else 0.
Definition SIG_UNBLOCK (t : Target) : Z := if DARWIN t then 2 else 1.
Definition SIG_SETMASK (t : Target) : Z := if DARWIN t then 3 else 2.
Definition REG_EBP : nat := 6.
Definition REG_EIP : nat := 14.

Definition jboolean : Set := bool.
Definition TRUE : jboolean := true.
Definition FALSE : jboolean := false.

(** A signal set. *)
Abbreviation sigset_t := (gset Z).

Definition sigemptyset : sigset_t := ∅.

(** What a [struct sigaction] names as the handler. *)
Inductive sighandler : Set :=
| SIG_DFL
| SIG_IGN
| signalHandler_ptr.       (* &signalHandler *)

(** [struct sigaction]; [sa_mask] is [None] while the member has not been
    initialised. *)
Record struct_sigaction : Type := {
  sa_handler : sighandler;
  sa_mask : option sigset_t;
  sa_flags : Z
}.

(** The part of [siginfo_t] the handler reads. *)
Record siginfo_t : Set := { si_addr : Z }.

(** The saved machine context: the thread state of Darwin
    ([uc_mcontext->__ss]) and the general registers of Linux
    ([uc_mcontext.gregs]).  A build uses the members of its own target. *)
Record ucontext_t : Set := {
  ss_ebp : Z;            (* Darwin x86:  __ss.__ebp  *)
  ss_eip : Z;            (* Darwin x86:  __ss.__eip  *)
  ss_r : list Z;         (* Darwin ARM:  __ss.__r[]  *)
  ss_pc : Z;             (* Darwin ARM:  __ss.__pc   *)
  gregs : list Z         (* Linux x86:   gregs[]     *)
}.

(** ** Runtime data (robovm.h) *)

Inductive Class : Set :=
| java_lang_Throwable
| java_lang_NullPointerException
| java_lang_StackOverflowError
| java_lang_InternalError
| java_lang_OutOfMemoryError.

Record InstanceField : Set := {
  f_class : Class;
  f_name : string;
  f_desc : string
}.

Record Frame : Set := {
  prev : Z;
  returnAddress : Z
}.

Record Thread : Type := {
  stackAddr : Z;
  signalMask : sigset_t
}.

Record Env : Type := {
  currentThread : Thread;
  throwable : Z            (* the pending exception, NULL when none *)
}.

(** A heap object: its class, its 64-bit instance fields by name, and for an
    internal error the OS error code it wraps. *)
Record Object : Type := {
  o_class : Class;
  o_fields : gmap string Z;
  o_errno : option Z
}.

(** ** Calls and programs *)

(** The calls signal.c makes, each with the type of what it hands back.
    Arguments that point to an [Env] or an [Object] are addresses.  The last
    four are the memory accesses of the file itself: [env->currentThread->stackAddr],
    [env->currentThread->signalMask] and the static [stackStateField]. *)
Inductive Call : Type -> Type :=
| sigaction (signum : Z) (act : struct_sigaction) : Call Z
| errno : Call Z
| pthread_sigmask (how : Z) (set : option sigset_t) (oldset : option Z) : Call Z
| kill (pid signum : Z) : Call Z
| puts (s : string) : Call Z
| rvmGetEnv : Call Z
| rvmIsNonNativeFrame (env : Z) : Call bool
| rvmGetInstanceField (env : Z) (c : Class) (name desc : string)
    : Call (option InstanceField)
| rvmAllocateObject (env : Z) (c : Class) : Call Z
| rvmExceptionClear (env : Z) : Call Z
| rvmCaptureCallStack (env : Z) (f : Frame) : Call Z
| rvmSetLongInstanceFieldValue (env obj : Z) (f : option InstanceField) (v : Z)
    : Call unit
| rvmRaiseException (env obj : Z) : Call unit
| rvmThrowInternalErrorErrno (env code : Z) : Call unit
| get_stackAddr (env : Z) : Call Z
| get_signalMask (env : Z) : Call sigset_t
| get_stackStateField : Call (option InstanceField)
| set_stackStateField (f : option InstanceField) : Call unit.

Inductive Prog (R : Type) : Type :=
| Ret (r : R)
| Vis (X : Type) (c : Call X) (k : X -> Prog R).

Arguments Ret {R} r.
Arguments Vis {R X} c k.

Fixpoint bind {A B : Type} (p : Prog A) (f : A -> Prog B) : Prog B :=
  match p with
  | Ret a => f a
  | Vis c k => Vis c (fun x => bind (k x) f)
  end.

Definition call {X : Type} (c : Call X) : Prog X := Vis c Ret.

Declare Scope prog_scope.
Delimit Scope prog_scope with prog.
Notation "x <- p ;; q" := (bind p (fun x => q))
  (at level 100, p at next level, right associativity) : prog_scope.
Notation "p ;; q" := (bind p (fun _ => q))
  (at level 100, right associativity) : prog_scope.
#[local] Open Scope prog_scope.

(** ** The source: vm/core/src/signal.c *)

Section Source.

(** The build target, and the two macros of the runtime headers the file
    uses: the size of the guard region below a thread's stack and the
    conversion of a pointer to a 64-bit field value. *)
Variable target : Target.
Variable THREAD_STACK_GUARD_SIZE : Z.
Variable PTR_TO_LONG : Z -> Z.

(** signal.c:41 *)
Definition rvmInitSignals (env : Z) : Prog jboolean :=
  f <- call (rvmGetInstanceField env java_lang_Throwable "stackState" "J") ;;
  call (set_stackStateField f) ;;
  match f with
  | None => Ret FALSE
  | Some _ => Ret TRUE
  end.

(** signal.c:90 *)
Definition rvmTearDownSignals (env : Z) : Prog unit := Ret tt.

(** signal.c:47 *)
Definition installSignalHandlers (env : Z) : Prog jboolean :=
  let sa := {| sa_handler := signalHandler_ptr;
               sa_mask := Some sigemptyset;
               sa_flags := Z.lor (SA_SIGINFO target) (SA_ONSTACK target) |} in
  let segv_and_mask : Prog jboolean :=
    r <- call (sigaction SIGSEGV sa) ;;
    if negb (r =? 0) then
      e <- call errno ;;
      call (rvmThrowInternalErrorErrno env e) ;;
      rvmTearDownSignals env ;;
      Ret FALSE
    else
      err <- call (pthread_sigmask 0 None (Some env)) ;;
      if negb (err =? 0) then
        call (rvmThrowInternalErrorErrno env err) ;;
        rvmTearDownSignals env ;;
        Ret FALSE
      else
        Ret TRUE in
  if DARWIN target then
    r <- call (sigaction (SIGBUS target) sa) ;;
    if negb (r =? 0) then
      e <- call errno ;;
      call (rvmThrowInternalErrorErrno env e) ;;
      rvmTearDownSignals env ;;
      Ret FALSE
    else segv_and_mask
  else segv_and_mask.

(** signal.c:79 *)
Definition rvmSetupSignals (env : Z) : Prog jboolean :=
  ok <- installSignalHandlers env ;;
  if negb ok then Ret FALSE else Ret TRUE.

(** signal.c:86 *)
Definition rvmRestoreSignalMask (env : Z) : Prog unit :=
  m <- call (get_signalMask env) ;;
  call (pthread_sigmask (SIG_SETMASK target) (Some m) None) ;;
  Ret tt.

(** signal.c:93 *)
Definition getFramePointer (context : ucontext_t) : Z :=
  match target with
  | Darwin_X86 => reg_to_ptr (ss_ebp context)
  | Darwin_THUMBV7 => reg_to_ptr (nth 7 (ss_r context) 0)
  | Linux_X86 => reg_to_ptr (nth REG_EBP (gregs context) 0)
  end.

(** signal.c:107 *)
Definition getPC (context : ucontext_t) : Z :=
  match target with
  | Darwin_X86 => reg_to_ptr (ss_eip context)
  | Darwin_THUMBV7 => reg_to_ptr (ss_pc context)
  | Linux_X86 => reg_to_ptr (nth REG_EIP (gregs context) 0)
  end.

(** signal.c:126-133: the class of the exception to throw for a fault at
    [faultAddr] on a thread whose stack starts at [stackAddr]; [None] is the
    C code's [exClass == NULL]. *)
Definition exClass_of (faultAddr stackAddr : Z) : option Class :=
  if faultAddr =? NULL then
    Some java_lang_NullPointerException
  else if (faultAddr <? stackAddr)
          && (ptr_sub stackAddr THREAD_STACK_GUARD_SIZE <=? faultAddr) then
    Some java_lang_StackOverflowError
  else
    None.

(** signal.c:151-155 *)
Definition redeliver (signum : Z) : Prog unit :=
  let sa := {| sa_handler := SIG_DFL; sa_mask := None; sa_flags := 0 |} in
  call (sigaction signum sa) ;;
  call (kill 0 signum) ;;
  Ret tt.

(** signal.c:121 *)
Definition signalHandler (signum : Z) (info : siginfo_t) (context : ucontext_t)
  : Prog unit :=
  env <- call rvmGetEnv ;;
  (if negb (env =? NULL) then
     managed <- call (rvmIsNonNativeFrame env) ;;
     if (managed : bool) then
       let faultAddr := si_addr info in
       stackAddr <- call (get_stackAddr env) ;;
       match exClass_of faultAddr stackAddr with
       | Some exClass =>
           allocated <- call (rvmAllocateObject env exClass) ;;
           throwable <- (if allocated =? NULL
                         then call (rvmExceptionClear env)
                         else Ret allocated) ;;
           let fakeFrame := {| prev := getFramePointer context;
                               returnAddress := getPC context |} in
           callStack <- call (rvmCaptureCallStack env fakeFrame) ;;
           field <- call get_stackStateField ;;
           call (rvmSetLongInstanceFieldValue env throwable field
                   (PTR_TO_LONG callStack)) ;;
           call (rvmRaiseException env throwable) ;;
           call (puts "foo7
") ;;
           Ret tt
       | None => Ret tt
       end
     else Ret tt
   else Ret tt) ;;
  redeliver signum.

End Source.

(** ** The world the calls act upon *)

(** What the handler cannot decide by itself: the answers of the runtime and
    the failures of the operating system (a test double forces them). *)
Record Oracle : Type := {
  sigaction_fault : Z -> option positive;  (* signal -> errno of a failing sigaction *)
  sigmask_fault : option positive;   (* error number of a failing pthread_sigmask *)
  top_frame_managed : bool;          (* the thread's current frame is not native *)
  allocation : Z;                    (* address of the next object, NULL: out of memory *)
  error_object : Z;                  (* address at which an internal error is built *)
  resolve_field : Class -> string -> string -> option InstanceField;
  stack_frames : gmap Z Frame;       (* the frames on the thread's stack, by address *)
  next_callstack : Z;                (* handle of the next snapshot, NULL: capture failed *)
  raise_returns : bool               (* the raise entry point hands control back *)
}.

Record World : Type := {
  oracle : Oracle;
  (* the process and the calling thread, as the operating system sees them *)
  dispositions : gmap Z struct_sigaction;   (* no entry: default disposition *)
  blocked : sigset_t;
  sent : list (Z * Z);                      (* signals sent by kill: (pid, signal) *)
  errno_value : Z;
  stdout : list string;
  (* the runtime *)
  current_env : Z;                          (* Env of the calling thread, or NULL *)
  envs : gmap Z Env;
  heap : gmap Z Object;
  callstacks : gmap Z (list Frame);
  stackStateField : option InstanceField    (* the static of signal.c *)
}.

Definition with_dispositions (d : gmap Z struct_sigaction) (w : World) : World :=
  {| oracle := oracle w; dispositions := d; blocked := blocked w; sent := sent w;
     errno_value := errno_value w; stdout := stdout w;
     current_env := current_env w; envs := envs w; heap := heap w;
     callstacks := callstacks w; stackStateField := stackStateField w |}.

Definition with_blocked (b : sigset_t) (w : World) : World :=
  {| oracle := oracle w; dispositions := dispositions w; blocked := b; sent := sent w;
     errno_value := errno_value w; stdout := stdout w;
     current_env := current_env w; envs := envs w; heap := heap w;
     callstacks := callstacks w; stackStateField := stackStateField w |}.

Definition with_sent (s : list (Z * Z)) (w : World) : World :=
  {| oracle := oracle w; dispositions := dispositions w; blocked := blocked w; sent := s;
     errno_value := errno_value w; stdout := stdout w;
     current_env := current_env w; envs := envs w; heap := heap w;
     callstacks := callstacks w; stackStateField := stackStateField w |}.

Definition with_errno (e : Z) (w : World) : World :=
  {| oracle := oracle w; dispositions := dispositions w; blocked := blocked w;
     sent := sent w; errno_value := e; stdout := stdout w;
     current_env := current_env w; envs := envs w; heap := heap w;
     callstacks := callstacks w; stackStateField := stackStateField w |}.

Definition with_stdout (o : list string) (w : World) : World :=
  {| oracle := oracle w; dispositions := dispositions w; blocked := blocked w;
     sent := sent w; errno_value := errno_value w; stdout := o;
     current_env := current_env w; envs := envs w; heap := heap w;
     callstacks := callstacks w; stackStateField := stackStateField w |}.

Definition with_envs (e : gmap Z Env) (w : World) : World :=
  {| oracle := oracle w; dispositions := dispositions w; blocked := blocked w;
     sent := sent w; errno_value := errno_value w; stdout := stdout w;
     current_env := current_env w; envs := e; heap := heap w;
     callstacks := callstacks w; stackStateField := stackStateField w |}.

Definition with_heap (h : gmap Z Object) (w : World) : World :=
  {| oracle := oracle w; dispositions := dispositions w; blocked := blocked w;
     sent := sent w; errno_value := errno_value w; stdout := stdout w;
     current_env := current_env w; envs := envs w; heap := h;
     callstacks := callstacks w; stackStateField := stackStateField w |}.

Definition with_callstacks (c : gmap Z (list Frame)) (w : World) : World :=
  {| oracle := oracle w; dispositions := dispositions w; blocked := blocked w;
     sent := sent w; errno_value := errno_value w; stdout := stdout w;
     current_env := current_env w; envs := envs w; heap := heap w;
     callstacks := c; stackStateField := stackStateField w |}.

Definition with_stackStateField (f : option InstanceField) (w : World) : World :=
  {| oracle := oracle w; dispositions := dispositions w; blocked := blocked w;
     sent := sent w; errno_value := errno_value w; stdout := stdout w;
     current_env := current_env w; envs := envs w; heap := heap w;
     callstacks := callstacks w; stackStateField := f |}.

Definition with_signalMask (m : sigset_t) (e : Env) : Env :=
  {| currentThread := {| stackAddr := stackAddr (currentThread e); signalMask := m |};
     throwable := throwable e |}.

Definition with_throwable (t : Z) (e : Env) : Env :=
  {| currentThread := currentThread e; throwable := t |}.

Definition with_field (name : string) (v : Z) (o : Object) : Object :=
  {| o_class := o_class o; o_fields := <[name := v]> (o_fields o);
     o_errno := o_errno o |}.

(** How a call, or a program, ends: it returns; it transfers control
    elsewhere in the thread and never returns ([rvmRaiseException]); or it
    dereferences an address at which there is nothing. *)
Inductive Outcome (R : Type) : Type :=
| Returned (r : R) (w : World)
| Transferred (w : World)
| Crashed (w : World).

Arguments Returned {R} r w.
Arguments Transferred {R} w.
Arguments Crashed {R} w.

Definition EINVAL : Z := 22.

(** The disposition of a signal, and what the operating system does when the
    signal is delivered. *)
Definition disposition (w : World) (signum : Z) : sighandler :=
  match dispositions w !! signum with
  | Some sa => sa_handler sa
  | None => SIG_DFL
  end.

Inductive Delivery : Set := default_action | discarded | enters_signalHandler.

Definition deliver (w : World) (signum : Z) : Delivery :=
  match disposition w signum with
  | SIG_DFL => default_action
  | SIG_IGN => discarded
  | signalHandler_ptr => enters_signalHandler
  end.

(** The frames reached from [f] through [prev] links. *)
Fixpoint frame_chain (fuel : nat) (mem : gmap Z Frame) (f : Frame) : list Frame :=
  f :: match fuel with
       | O => []
       | S n => match mem !! prev f with
                | Some g => frame_chain n mem g
                | None => []
                end
       end.

(** ** What the calls do *)

Section Semantics.

Variable target : Target.

(** POSIX sigaction with no [oldact]: on success the disposition of the
    signal is replaced; on failure -1 is returned and [errno] set. *)
Definition do_sigaction (signum : Z) (act : struct_sigaction) (w : World)
  : Outcome Z :=
  match sigaction_fault (oracle w) signum with
  | Some e => Returned (-1) (with_errno (Z.pos e) w)
  | None => Returned 0 (with_dispositions (<[signum := act]> (dispositions w)) w)
  end.

(** POSIX pthread_sigmask: the previous mask goes to [oldset] (here the
    [signalMask] of the thread of an [Env]), and with a [set] the mask of the
    calling thread changes as [how] says.  The error number is returned. *)
Definition do_pthread_sigmask (how : Z) (set : option sigset_t)
    (oldset : option Z) (w : World) : Outcome Z :=
  match sigmask_fault (oracle w) with
  | Some e => Returned (Z.pos e) w
  | None =>
      let changed :=
        match set with
        | None => Some (blocked w)
        | Some s =>
            if how =? SIG_BLOCK target then Some (blocked w ∪ s)
            else if how =? SIG_UNBLOCK target then Some (blocked w ∖ s)
            else if how =? SIG_SETMASK target then Some s
            else None
        end in
      match changed with
      | None => Returned EINVAL w
      | Some b =>
          match oldset with
          | None => Returned 0 (with_blocked b w)
          | Some env =>
              match envs w !! env with
              | Some e =>
                  Returned 0
                    (with_blocked b
                       (with_envs (<[env := with_signalMask (blocked w) e]> (envs w)) w))
              | None => Crashed w
              end
          end
      end
  end.

(** kill: the signal is sent. *)
Definition do_kill (pid signum : Z) (w : World) : Outcome Z :=
  Returned 0 (with_sent (sent w ++ [(pid, signum)]) w).

(** puts writes the string and a newline. *)
Definition do_puts (s : string) (w : World) : Outcome Z :=
  Returned 0 (with_stdout (stdout w ++ [s]) w).

(** Modelled from the spec: rvmGetEnv (vm/core/src, not in signal.c), the
    "thread-to-environment lookup by OS thread identity", which finds none
    on a thread the runtime does not manage. *)
Definition do_rvmGetEnv (w : World) : Outcome Z :=
  Returned (current_env w) w.

(** Modelled from the spec: rvmIsNonNativeFrame, the predicate "is the
    thread's current frame native?", negated. *)
Definition do_rvmIsNonNativeFrame (env : Z) (w : World) : Outcome bool :=
  Returned (top_frame_managed (oracle w)) w.

(** Modelled from the spec: rvmGetInstanceField, "field resolution". *)
Definition do_rvmGetInstanceField (env : Z) (c : Class) (name desc : string)
    (w : World) : Outcome (option InstanceField) :=
  Returned (resolve_field (oracle w) c name desc) w.

(** Modelled from the spec: rvmAllocateObject, "object allocation by managed
    class", which can fail.  A new object has the class asked for; a failed
    allocation returns NULL, and whatever exception is then pending on the
    environment is the [throwable] of the [Env] in this world. *)
Definition do_rvmAllocateObject (env : Z) (c : Class) (w : World) : Outcome Z :=
  let a := allocation (oracle w) in
  if a =? NULL then Returned NULL w
  else Returned a
         (with_heap (<[a := {| o_class := c; o_fields := ∅; o_errno := None |}]>
                       (heap w)) w).

(** Modelled from the spec: rvmExceptionClear, the "retrieval of any
    currently-pending exception"; the environment has none pending
    afterwards. *)
Definition do_rvmExceptionClear (env : Z) (w : World) : Outcome Z :=
  match envs w !! env with
  | Some e => Returned (throwable e)
                (with_envs (<[env := with_throwable NULL e]> (envs w)) w)
  | None => Crashed w
  end.

(** Modelled from the spec: rvmCaptureCallStack, "stack-snapshot capture
    given a synthetic root frame": the snapshot is the chain of frames that
    starts with the root, innermost first. *)
Definition do_rvmCaptureCallStack (env : Z) (f : Frame) (w : World) : Outcome Z :=
  let h := next_callstack (oracle w) in
  if h =? NULL then Returned NULL w
  else
    let frames := stack_frames (oracle w) in
    Returned h
      (with_callstacks (<[h := frame_chain (size frames) frames f]> (callstacks w)) w).

(** Modelled from the spec: rvmSetLongInstanceFieldValue, the "64-bit
    field-set operation": it stores into the field of the object, and
    nothing else. *)
Definition do_rvmSetLongInstanceFieldValue (env obj : Z)
    (f : option InstanceField) (v : Z) (w : World) : Outcome unit :=
  match f, heap w !! obj with
  | Some fld, Some o =>
      Returned tt (with_heap (<[obj := with_field (f_name fld) v o]> (heap w)) w)
  | _, _ => Crashed w
  end.

(** Modelled from the spec: rvmRaiseException, "the exception-raise entry
    point", which "may not return by normal means".  The exception becomes
    the pending one of the environment. *)
Definition do_rvmRaiseException (env obj : Z) (w : World) : Outcome unit :=
  match envs w !! env with
  | Some e =>
      let w' := with_envs (<[env := with_throwable obj e]> (envs w)) w in
      if raise_returns (oracle w) then Returned tt w' else Transferred w'
  | None => Crashed w
  end.

(** Modelled from the spec: rvmThrowInternalErrorErrno, "an internal-error
    constructor that wraps an OS error code"; the error becomes the pending
    exception of the environment. *)
Definition do_rvmThrowInternalErrorErrno (env code : Z) (w : World)
  : Outcome unit :=
  match envs w !! env with
  | Some e =>
      let a := error_object (oracle w) in
      Returned tt
        (with_envs (<[env := with_throwable a e]> (envs w))
           (with_heap (<[a := {| o_class := java_lang_InternalError;
                                 o_fields := ∅;
                                 o_errno := Some code |}]> (heap w)) w))
  | None => Crashed w
  end.

Definition exec {X : Type} (c : Call X) (w : World) : Outcome X :=
  match c in Call X return Outcome X with
  | sigaction signum act => do_sigaction signum act w
  | errno => Returned (errno_value w) w
  | pthread_sigmask how set oldset => do_pthread_sigmask how set oldset w
  | kill pid signum => do_kill pid signum w
  | puts s => do_puts s w
  | rvmGetEnv => do_rvmGetEnv w
  | rvmIsNonNativeFrame env => do_rvmIsNonNativeFrame env w
  | rvmGetInstanceField env c name desc => do_rvmGetInstanceField env c name desc w
  | rvmAllocateObject env c => do_rvmAllocateObject env c w
  | rvmExceptionClear env => do_rvmExceptionClear env w
  | rvmCaptureCallStack env f => do_rvmCaptureCallStack env f w
  | rvmSetLongInstanceFieldValue env obj f v =>
      do_rvmSetLongInstanceFieldValue env obj f v w
  | rvmRaiseException env obj => do_rvmRaiseException env obj w
  | rvmThrowInternalErrorErrno env code => do_rvmThrowInternalErrorErrno env code w
  | get_stackAddr env =>
      match envs w !! env with
      | Some e => Returned (stackAddr (currentThread e)) w
      | None => Crashed w
      end
  | get_signalMask env =>
      match envs w !! env with
      | Some e => Returned (signalMask (currentThread e)) w
      | None => Crashed w
      end
  | get_stackStateField => Returned (stackStateField w) w
  | set_stackStateField f => Returned tt (with_stackStateField f w)
  end.

(** A call as it appears in the record of an execution. *)
Inductive Event : Type :=
| Ev {X : Type} (c : Call X).

(** Running a program: the calls it made, in order, and how it ended. *)
Fixpoint run {R : Type} (p : Prog R) (w : World) : list Event * Outcome R :=
  match p with
  | Ret r => ([], Returned r w)
  | Vis c k =>
      match exec c w with
      | Returned x w' => let (t, o) := run (k x) w' in (Ev c :: t, o)
      | Transferred w' => ([Ev c], Transferred w')
      | Crashed w' => ([Ev c], Crashed w')
      end
  end.

Definition trace {R : Type} (p : Prog R) (w : World) : list Event := fst (run p w).
Definition outcome {R : Type} (p : Prog R) (w : World) : Outcome R := snd (run p w).

Definition final_world {R : Type} (o : Outcome R) : World :=
  match o with
  | Returned _ w => w
  | Transferred w => w
  | Crashed w => w
  end.

End Semantics.

(** ** Reading the record of an execution *)

(** The classes for which an object was requested from the allocator. *)
Definition allocations (t : list Event) : list Class :=
  flat_map (fun e => match e with
                     | Ev (rvmAllocateObject _ c) => [c]
                     | _ => []
                     end) t.

(** The objects handed to the raise entry point. *)
Definition raises (t : list Event) : list Z :=
  flat_map (fun e => match e with
                     | Ev (rvmRaiseException _ obj) => [obj]
                     | _ => []
                     end) t.

(** The stores into instance fields: object, field handle, value. *)
Definition field_stores (t : list Event) : list (Z * option InstanceField * Z) :=
  flat_map (fun e => match e with
                     | Ev (rvmSetLongInstanceFieldValue _ obj f v) => [(obj, f, v)]
                     | _ => []
                     end) t.

(** The root frames from which a stack snapshot was captured. *)
Definition captures (t : list Event) : list Frame :=
  flat_map (fun e => match e with
                     | Ev (rvmCaptureCallStack _ f) => [f]
                     | _ => []
                     end) t.

(** The signals sent: (pid, signal). *)
Definition kills (t : list Event) : list (Z * Z) :=
  flat_map (fun e => match e with
                     | Ev (kill pid signum) => [(pid, signum)]
                     | _ => []
                     end) t.

(** The changes of disposition asked of the operating system. *)
Definition sigactions (t : list Event) : list (Z * struct_sigaction) :=
  flat_map (fun e => match e with
                     | Ev (sigaction signum act) => [(signum, act)]
                     | _ => []
                     end) t.

(** The error codes for which an internal error was thrown. *)
Definition internal_errors (t : list Event) : list Z :=
  flat_map (fun e => match e with
                     | Ev (rvmThrowInternalErrorErrno _ code) => [code]
                     | _ => []
                     end) t.

(** ** The fault classification of the design *)

Inductive FaultClassification : Set :=
| NullPointerFault
| StackOverflowFault
| Unhandled.

(** The classification the handler has made, read off the class it picked. *)
Definition classification (exClass : option Class) : FaultClassification :=
  match exClass with
  | Some java_lang_NullPointerException => NullPointerFault
  | Some java_lang_StackOverflowError => StackOverflowFault
  | _ => Unhandled
  end.

(** The classification a run of the handler acted upon: the class of the
    exception object it asked for, if it asked for one. *)
Definition handled_as (t : list Event) : FaultClassification :=
  classification (head (allocations t)).

(** The faulting address of a fault, if one is present. *)
Definition fault_address (info : siginfo_t) : option Z :=
  if si_addr info =? NULL then None else Some (si_addr info).

(** The classification as the design document words it: membership of the
    faulting address in the interval [stackBase - guardSize, stackBase) of
    the integers. *)
Definition classify_spec (faultAddr : option Z) (stackBase guardSize : Z)
  : FaultClassification :=
  match faultAddr with
  | None => NullPointerFault
  | Some a =>
      if (stackBase - guardSize <=? a) && (a <? stackBase)
      then StackOverflowFault
      else Unhandled
  end.

(** The reset of a disposition that precedes the redelivery of a signal. *)
Definition default_sigaction : struct_sigaction :=
  {| sa_handler := SIG_DFL; sa_mask := None; sa_flags := 0 |}.

(** ** The paths through the handler *)

Section Paths.

Variable target : Target.
Variable THREAD_STACK_GUARD_SIZE : Z.
Variable PTR_TO_LONG : Z -> Z.

(** The world after lines 151-155. *)
Definition after_redeliver (signum : Z) (w : World) : World :=
  let w1 := match sigaction_fault (oracle w) signum with
            | Some e => with_errno (Z.pos e) w
            | None => with_dispositions
                        (<[signum := default_sigaction]> (dispositions w)) w
            end in
  with_sent (sent w1 ++ [(0, signum)]) w1.

Definition redeliver_events (signum : Z) : list Event :=
  [Ev (sigaction signum default_sigaction); Ev (kill 0 signum)].

(** The handler leaves the fault to the operating system: there is no
    environment, or the current frame is native, or the address is neither
    null nor in the guard region (lines 122-133). *)
Definition declines (w : World) (info : siginfo_t) : Prop :=
  current_env w = NULL
  \/ (current_env w <> NULL /\ top_frame_managed (oracle w) = false)
  \/ (current_env w <> NULL /\ top_frame_managed (oracle w) = true
      /\ exists e, envs w !! current_env w = Some e
           /\ exClass_of THREAD_STACK_GUARD_SIZE (si_addr info)
                (stackAddr (currentThread e)) = None).

(** The handler picks the exception class [c] for the fault, on the
    environment [e] found at [env]. *)
Definition classifies (w : World) (info : siginfo_t) (env : Z) (e : Env)
    (c : Class) : Prop :=
  current_env w = env /\ env <> NULL
  /\ top_frame_managed (oracle w) = true
  /\ envs w !! env = Some e
  /\ exClass_of THREAD_STACK_GUARD_SIZE (si_addr info)
       (stackAddr (currentThread e)) = Some c.

(** What the handler asks before it decides. *)
Definition enquiries (w : World) : list Event :=
  let env := current_env w in
  Ev rvmGetEnv ::
  (if env =? NULL then []
   else Ev (rvmIsNonNativeFrame env) ::
        (if top_frame_managed (oracle w) then [Ev (get_stackAddr env)] else [])).

(** The object the handler goes on with after lines 136-139: the new
    object, or the pending exception when there is no new object. *)
Definition thrown_object (w : World) (e : Env) : Z :=
  if allocation (oracle w) =? NULL then throwable e else allocation (oracle w).

(** The world after lines 136-139. *)
Definition after_allocation (w : World) (env : Z) (e : Env) (c : Class) : World :=
  let a := allocation (oracle w) in
  if a =? NULL then with_envs (<[env := with_throwable NULL e]> (envs w)) w
  else with_heap (<[a := {| o_class := c; o_fields := ∅; o_errno := None |}]>
                    (heap w)) w.

(** The frame of lines 140-142. *)
Definition fakeFrame (context : ucontext_t) : Frame :=
  {| prev := getFramePointer target context;
     returnAddress := getPC target context |}.

(** The snapshot taken from a root frame in a world. *)
Definition snapshot (w : World) (root : Frame) : list Frame :=
  frame_chain (size (stack_frames (oracle w))) (stack_frames (oracle w)) root.

(** The world after line 143. *)
Definition after_capture (w : World) (root : Frame) : World :=
  let h := next_callstack (oracle w) in
  if h =? NULL then w
  else with_callstacks (<[h := snapshot w root]> (callstacks w)) w.

(** The world after line 144, for a live object [o] at [obj]. *)
Definition after_store (w : World) (obj : Z) (o : Object) (name : string) (v : Z)
  : World :=
  with_heap (<[obj := with_field name v o]> (heap w)) w.

(** The world after line 145. *)
Definition after_raise (w : World) (env obj : Z) (e : Env) : World :=
  with_envs (<[env := with_throwable obj e]> (envs w)) w.

(** The world in which the raise entry point leaves the thread. *)
Definition raised_world (w : World) (env : Z) (e : Env) (c : Class)
    (context : ucontext_t) (fld : InstanceField) (o : Object) : World :=
  let obj := thrown_object w e in
  let w1 := after_allocation w env e c in
  let w2 := after_capture w1 (fakeFrame context) in
  let w3 := after_store w2 obj o (f_name fld)
              (PTR_TO_LONG (next_callstack (oracle w))) in
  after_raise w3 env obj e.

(** The calls of lines 136-145. *)
Definition translation_events (w : World) (env : Z) (e : Env) (c : Class)
    (context : ucontext_t) (fld : InstanceField) : list Event :=
  let obj := thrown_object w e in
  Ev (rvmAllocateObject env c) ::
  (if allocation (oracle w) =? NULL then [Ev (rvmExceptionClear env)] else [])
  ++ [Ev (rvmCaptureCallStack env (fakeFrame context));
      Ev get_stackStateField;
      Ev (rvmSetLongInstanceFieldValue env obj (Some fld)
            (PTR_TO_LONG (next_callstack (oracle w))));
      Ev (rvmRaiseException env obj)].

End Paths.

(** ** The paths through the installer *)

Section InstallerPaths.

Variable target : Target.

(** The [struct sigaction] of lines 50-52. *)
Definition handler_action : struct_sigaction :=
  {| sa_handler := signalHandler_ptr;
     sa_mask := Some sigemptyset;
     sa_flags := Z.lor (SA_SIGINFO target) (SA_ONSTACK target) |}.

(** The signals the installer registers the handler for, in order. *)
Definition fault_signals : list Z :=
  if DARWIN target then [SIGBUS target; SIGSEGV] else [SIGSEGV].

(** The error of the first registration that fails. *)
Fixpoint first_fault (faults : Z -> option positive) (signals : list Z)
  : option positive :=
  match signals with
  | [] => None
  | s :: rest => match faults s with
                 | Some e => Some e
                 | None => first_fault faults rest
                 end
  end.

(** The signals registered before the first registration that fails. *)
Fixpoint registered_before (faults : Z -> option positive) (signals : list Z)
  : list Z :=
  match signals with
  | [] => []
  | s :: rest => match faults s with
                 | Some _ => []
                 | None => s :: registered_before faults rest
                 end
  end.

(** The OS error code of a run of the installer in which a registration or
    the capture of the mask fails. *)
Definition registration_failure (w : World) : option positive :=
  match first_fault (sigaction_fault (oracle w)) fault_signals with
  | Some e => Some e
  | None => sigmask_fault (oracle w)
  end.

Definition registered (w : World) : list Z :=
  registered_before (sigaction_fault (oracle w)) fault_signals.

Definition register (d : gmap Z struct_sigaction) (signals : list Z)
  : gmap Z struct_sigaction :=
  foldl (fun d s => <[s := handler_action]> d) d signals.

(** The world when the registrations are over. *)
Definition after_registrations (w : World) : World :=
  let w1 := with_dispositions (register (dispositions w) (registered w)) w in
  match first_fault (sigaction_fault (oracle w)) fault_signals with
  | Some e => with_errno (Z.pos e) w1
  | None => w1
  end.

(** The world after rvmThrowInternalErrorErrno. *)
Definition after_throw (w : World) (env : Z) (e : Env) (code : Z) : World :=
  let a := error_object (oracle w) in
  with_envs (<[env := with_throwable a e]> (envs w))
    (with_heap (<[a := {| o_class := java_lang_InternalError;
                          o_fields := ∅;
                          o_errno := Some code |}]> (heap w)) w).

(** The world after line 70, when the mask was captured. *)
Definition after_capture_mask (w : World) (env : Z) (e : Env) : World :=
  with_blocked (blocked w)
    (with_envs (<[env := with_signalMask (blocked w) e]> (envs w)) w).

Fixpoint registration_events (faults : Z -> option positive) (env : Z)
    (signals : list Z) : list Event :=
  match signals with
  | [] => []
  | s :: rest =>
      Ev (sigaction s handler_action) ::
      match faults s with
      | Some e => [Ev errno; Ev (rvmThrowInternalErrorErrno env (Z.pos e))]
      | None => registration_events faults env rest
      end
  end.

(** The calls of a run of the installer. *)
Definition install_events (w : World) (env : Z) : list Event :=
  registration_events (sigaction_fault (oracle w)) env fault_signals
  ++ match first_fault (sigaction_fault (oracle w)) fault_signals with
     | Some _ => []
     | None =>
         Ev (pthread_sigmask 0 None (Some env)) ::
         match sigmask_fault (oracle w) with
         | Some e => [Ev (rvmThrowInternalErrorErrno env (Z.pos e))]
         | None => []
         end
     end.

End InstallerPaths.

(** ** Worlds to run the code in *)

(** The field [rvmInitSignals] resolves. *)
Definition stackState : InstanceField :=
  {| f_class := java_lang_Throwable; f_name := "stackState"; f_desc := "J" |}.

Definition example_oracle (segv_fault mask_fault : option positive)
    (managed : bool) (alloc : Z) (returns : bool) : Oracle :=
  {| sigaction_fault := fun s => if s =? SIGSEGV then segv_fault else None;
     sigmask_fault := mask_fault;
     top_frame_managed := managed;
     allocation := alloc;
     error_object := 0x6000;
     resolve_field := fun c name desc =>
       Some {| f_class := c; f_name := name; f_desc := desc |};
     stack_frames := {[ 0x00FFF000 := {| prev := 0; returnAddress := 0x4444 |} ]};
     next_callstack := 0x7000;
     raise_returns := returns |}.

(** A thread whose stack starts at 0x1000000, attached at [0x100]. *)
Definition example_env (pending : Z) : Env :=
  {| currentThread := {| stackAddr := 0x1000000; signalMask := {[ 14 ]} |};
     throwable := pending |}.

(** An out-of-memory error that was thrown earlier, with a stack state. *)
Definition example_error : Object :=
  {| o_class := java_lang_OutOfMemoryError;
     o_fields := {[ "stackState"%string := 0x1111 ]};
     o_errno := None |}.

(** A Linux process in which the handler is installed; [cur] is what the
    environment lookup finds for the thread, [pending] its pending
    exception. *)
Definition running_world (o : Oracle) (cur pending : Z) : World :=
  {| oracle := o;
     dispositions := {[ SIGSEGV := handler_action Linux_X86 ]};
     blocked := {[ 2 ]};
     sent := [];
     errno_value := 0;
     stdout := [];
     current_env := cur;
     envs := {[ 0x100 := example_env pending ]};
     heap := {[ 0x9000 := example_error ]};
     callstacks := ∅;
     stackStateField := Some stackState |}.

(** The same process before the installer has run. *)
Definition startup_world (o : Oracle) : World :=
  with_dispositions ∅ (running_world o 0x100 NULL).

(** A Linux machine context with frame pointer 0x00FFF000 and program
    counter 0x08048000. *)
Definition example_context : ucontext_t :=
  {| ss_ebp := 0; ss_eip := 0; ss_r := []; ss_pc := 0;
     gregs := [0; 0; 0; 0; 0; 0; 0x00FFF000; 0x00FFEF00; 0; 0; 0; 0; 0; 0;
               0x08048000] |}.

(** The handler of a Linux build with a guard region of 64k. *)
Definition example_handler (faultAddr : Z) : Prog unit :=
  signalHandler Linux_X86 0x10000 (fun p => p) SIGSEGV
    {| si_addr := faultAddr |} example_context.

(** The thread is attached, its current frame is managed, there is memory
    for the exception, and the raise entry point does not return. *)
Definition world_managed : World :=
  running_world (example_oracle None None true 0x5000 false) 0x100 NULL.

(** The same, but the raise entry point returns. *)
Definition world_raise_returns : World :=
  running_world (example_oracle None None true 0x5000 true) 0x100 NULL.

(** The current frame of the thread is native. *)
Definition world_native : World :=
  running_world (example_oracle None None false 0x5000 false) 0x100 NULL.

(** There is no memory for the exception; the out-of-memory error at
    0x9000 is pending. *)
Definition world_out_of_memory : World :=
  running_world (example_oracle None None true NULL false) 0x100 0x9000.


(** Before installation; the operating system will refuse to report the
    mask of the thread (EINVAL). *)
Definition world_mask_fails : World :=
  startup_world (example_oracle None (Some 22%positive) true 0x5000 false).

(** Before installation; nothing will fail. *)
Definition world_startup : World :=
  startup_world (example_oracle None None true 0x5000 false).

(** After installation in [world_startup], the thread has since blocked
    signal 15 as well. *)
Definition world_drifted : World :=
  with_blocked {[ 2; 15 ]}
    (final_world
       (outcome Linux_X86 (installSignalHandlers Linux_X86 0x100) world_startup)).

(** ** The calls a program can make *)

(** Every call a program makes, whatever the answers, satisfies [Q]. *)
Inductive only_calls {R : Type} (Q : forall X : Type, Call X -> Prop)
  : Prog R -> Prop :=
| only_Ret (r : R) : only_calls Q (Ret r)
| only_Vis {X : Type} (c : Call X) (k : X -> Prog R) :
    Q X c -> (forall x, only_calls Q (k x)) -> only_calls Q (Vis c k).

(** The calls of the handler for the signal [signum]: it changes the
    disposition of that signal only, and never calls pthread_sigmask, the
    internal-error constructor, the field resolution or the setter of the
    cached handle. *)
Definition handler_call (signum : Z) (X : Type) (c : Call X) : Prop :=
  match c with
  | sigaction s act => s = signum /\ sa_handler act = SIG_DFL
  | pthread_sigmask _ _ _ => False
  | rvmThrowInternalErrorErrno _ _ => False
  | rvmGetInstanceField _ _ _ _ => False
  | set_stackStateField _ => False
  | _ => True
  end.

(** The calls of the installer: it registers for the fault signals of the
    target only, asks for the mask without a new one, and never sends a
    signal, allocates, raises or touches the cached handle. *)
Definition installer_call (target : Target) (X : Type) (c : Call X) : Prop :=
  match c with
  | sigaction s act => In s (fault_signals target) /\ act = handler_action target
  | pthread_sigmask _ set _ => set = None
  | errno => True
  | rvmThrowInternalErrorErrno _ _ => True
  | _ => False
  end.

(** The requests to take the pending exception off an environment. *)
Definition clears (t : list Event) : list Z :=
  flat_map (fun e => match e with
                     | Ev (rvmExceptionClear env) => [env]
                     | _ => []
                     end) t.

(** The calls of pthread_sigmask: how, new mask, where the old one goes. *)
Definition sigmask_calls (t : list Event)
  : list (Z * option sigset_t * option Z) :=
  flat_map (fun e => match e with
                     | Ev (pthread_sigmask how set oldset) => [(how, set, oldset)]
                     | _ => []
                     end) t.

(** A Darwin process before the installer has run, in which the
    registration for SIGSEGV will fail with [segv_fault]. *)
Definition darwin_startup (segv_fault : option positive) : World :=
  startup_world (example_oracle segv_fault None true 0x5000 false).

(** The registers the design reads a machine context for: the frame pointer
    (ebp on x86, r7 on ARM Thumb-2) and the program counter (eip on x86, pc
    on ARM); on Linux they are entries 6 and 14 of the general registers. *)
Definition frame_pointer_register (target : Target) (context : ucontext_t) : Z :=
  match target with
  | Darwin_X86 => ss_ebp context
  | Darwin_THUMBV7 => nth 7 (ss_r context) 0
  | Linux_X86 => nth 6 (gregs context) 0
  end.

Definition program_counter_register (target : Target) (context : ucontext_t) : Z :=
  match target with
  | Darwin_X86 => ss_eip context
  | Darwin_THUMBV7 => ss_pc context
  | Linux_X86 => nth 14 (gregs context) 0
  end.

(** ** Executions of the handler, path by path *)

Lemma run_bind (target : Target) {A B : Type} (p : Prog A) (f : A -> Prog B)
    (w : World) :
  run target (bind p f) w =
  match run target p w with
  | (t, Returned a w') => let (t', o) := run target (f a) w' in (t ++ t', o)
  | (t, Transferred w') => (t, Transferred w')
  | (t, Crashed w') => (t, Crashed w')
  end.
Proof.
  revert w; induction p as [a | X c k IH]; intros w; cbn.
  - destruct (run target (f a) w); reflexivity.
  - destruct (exec target c w) as [x w' | w' | w']; try reflexivity.
    rewrite IH.
    destruct (run target (k x) w') as [t [a w'' | w'' | w'']]; try reflexivity.
    destruct (run target (f a) w''); reflexivity.
Qed.

Section Handler.

Variable target : Target.
Variable THREAD_STACK_GUARD_SIZE : Z.
Variable PTR_TO_LONG : Z -> Z.

#[local] Abbreviation handler :=
  (signalHandler target THREAD_STACK_GUARD_SIZE PTR_TO_LONG).

#[local] Arguments redeliver : simpl never.

Lemma run_redeliver (signum : Z) (w : World) :
  run target (redeliver signum) w
  = (redeliver_events signum, Returned tt (after_redeliver signum w)).
Proof.
  unfold redeliver, after_redeliver, redeliver_events, default_sigaction.
  cbn. unfold do_sigaction.
  destruct (sigaction_fault (oracle w) signum); reflexivity.
Qed.

Lemma run_declined (w : World) (signum : Z) (info : siginfo_t) (ctx : ucontext_t) :
  declines THREAD_STACK_GUARD_SIZE w info ->
  run target (handler signum info ctx) w
  = (enquiries w ++ redeliver_events signum,
     Returned tt (after_redeliver signum w)).
Proof.
  intros [H | [[H Hm] | (H & Hm & e & He & Hc)]];
    unfold signalHandler, enquiries; cbn.
  - rewrite H. cbn. rewrite run_redeliver. reflexivity.
  - apply Z.eqb_neq in H. rewrite H. cbn. rewrite Hm. cbn.
    rewrite run_redeliver. reflexivity.
  - apply Z.eqb_neq in H. rewrite H. cbn. rewrite Hm. cbn. rewrite He. cbn.
    rewrite Hc. cbn. rewrite run_redeliver. reflexivity.
Qed.

Lemma run_classified (w : World) (signum : Z) (info : siginfo_t)
    (ctx : ucontext_t) (env : Z) (e : Env) (c : Class) (fld : InstanceField)
    (o : Object) :
  classifies THREAD_STACK_GUARD_SIZE w info env e c ->
  stackStateField w = Some fld ->
  heap (after_allocation w env e c) !! thrown_object w e = Some o ->
  run target (handler signum info ctx) w
  = let w4 := raised_world target PTR_TO_LONG w env e c ctx fld o in
    if raise_returns (oracle w)
    then (enquiries w ++ translation_events target PTR_TO_LONG w env e c ctx fld
            ++ Ev (puts "foo7
") :: redeliver_events signum,
          Returned tt
            (after_redeliver signum (with_stdout (stdout w4 ++ ["foo7
"]) w4)))
    else (enquiries w ++ translation_events target PTR_TO_LONG w env e c ctx fld, Transferred w4).
Proof.
  intros (Hcur & Hnn & Hm & He & Hc) Hf Ho.
  unfold signalHandler, enquiries, translation_events, raised_world,
    thrown_object, after_allocation, after_capture, fakeFrame in *.
  cbn. rewrite Hcur. apply Z.eqb_neq in Hnn. rewrite Hnn. cbn.
  rewrite Hm. cbn. rewrite He. cbn. rewrite Hc. cbn.
  unfold do_rvmAllocateObject.
  destruct (allocation (oracle w) =? NULL) eqn:Ha; cbn.
  - unfold do_rvmExceptionClear. rewrite He. cbn.
    unfold do_rvmCaptureCallStack. cbn.
    destruct (next_callstack (oracle w) =? NULL) eqn:Hcs;
      [apply Z.eqb_eq in Hcs; rewrite ?Hcs |]; cbn; rewrite Hf;
      unfold do_rvmSetLongInstanceFieldValue; cbn in Ho |- *; rewrite Ho; cbn;
      unfold do_rvmRaiseException; cbn; rewrite lookup_insert_eq; cbn;
      destruct (raise_returns (oracle w)); cbn;
      rewrite ?run_redeliver; reflexivity.
  - rewrite Ha. cbn. unfold do_rvmCaptureCallStack. cbn.
    destruct (next_callstack (oracle w) =? NULL) eqn:Hcs;
      [apply Z.eqb_eq in Hcs; rewrite ?Hcs |]; cbn; rewrite Hf;
      unfold do_rvmSetLongInstanceFieldValue; cbn in Ho |- *; rewrite Ho; cbn;
      unfold do_rvmRaiseException; cbn; rewrite He; cbn;
      destruct (raise_returns (oracle w)); cbn;
      rewrite ?run_redeliver; reflexivity.
Qed.

End Handler.

(** ** Executions of the installer and of the mask restorer *)

Section Installer.

Variable target : Target.

Lemma run_rvmTearDownSignals (env : Z) (w : World) :
  run target (rvmTearDownSignals env) w = ([], Returned tt w).
Proof. reflexivity. Qed.

Lemma run_installSignalHandlers (w : World) (env : Z) (e : Env) :
  envs w !! env = Some e ->
  run target (installSignalHandlers target env) w
  = (install_events target w env,
     match registration_failure target w with
     | Some code =>
         Returned FALSE
           (after_throw (after_registrations target w) env e (Z.pos code))
     | None =>
         Returned TRUE (after_capture_mask (after_registrations target w) env e)
     end).
Proof.
  intros He.
  destruct (sigaction_fault (oracle w) SIGSEGV) eqn:Hs;
    destruct (sigaction_fault (oracle w) (SIGBUS target)) eqn:Hb;
    destruct (sigmask_fault (oracle w)) eqn:Hm;
    unfold installSignalHandlers, install_events, registration_failure,
      after_registrations, registered, fault_signals, after_throw,
      after_capture_mask;
    destruct target; cbn in *;
    repeat first
      [ rewrite Hs | rewrite Hb | rewrite Hm | rewrite He
      | progress unfold do_sigaction, do_pthread_sigmask,
          do_rvmThrowInternalErrorErrno
      | progress cbn ];
    reflexivity.
Qed.

Lemma run_rvmRestoreSignalMask (w : World) (env : Z) (e : Env) :
  envs w !! env = Some e ->
  run target (rvmRestoreSignalMask target env) w
  = ([Ev (get_signalMask env);
      Ev (pthread_sigmask (SIG_SETMASK target)
            (Some (signalMask (currentThread e))) None)],
     Returned tt
       match sigmask_fault (oracle w) with
       | Some _ => w
       | None => with_blocked (signalMask (currentThread e)) w
       end).
Proof.
  intros He. unfold rvmRestoreSignalMask. cbn. rewrite He. cbn.
  unfold do_pthread_sigmask.
  destruct (sigmask_fault (oracle w)); [reflexivity |].
  destruct target; reflexivity.
Qed.

(** rvmInitSignals caches what the field resolution finds, and reports
    whether it found the field. *)
Lemma run_rvmInitSignals (w : World) (env : Z) :
  let f := resolve_field (oracle w) java_lang_Throwable "stackState" "J" in
  run target (rvmInitSignals env) w
  = ([Ev (rvmGetInstanceField env java_lang_Throwable "stackState" "J");
      Ev (set_stackStateField f)],
     Returned (match f with Some _ => TRUE | None => FALSE end)
       (with_stackStateField f w)).
Proof.
  cbn. destruct (resolve_field _ _ _ _); reflexivity.
Qed.

End Installer.

(** ** The classification *)

Section Classification.

Variable THREAD_STACK_GUARD_SIZE : Z.

Lemma exClass_of_cases (faultAddr stackAddr : Z) (c : Class) :
  exClass_of THREAD_STACK_GUARD_SIZE faultAddr stackAddr = Some c ->
  c = java_lang_NullPointerException \/ c = java_lang_StackOverflowError.
Proof.
  unfold exClass_of.
  destruct (faultAddr =? NULL); [intros [= <-]; now left |].
  destruct (_ && _); [intros [= <-]; now right | discriminate].
Qed.

(** Without wrap-around in [stackAddr - THREAD_STACK_GUARD_SIZE], the test of
    line 130 is membership in the guard region. *)
Lemma ptr_sub_exact (p n : Z) : is_ptr p -> 0 <= n <= p -> ptr_sub p n = p - n.
Proof.
  unfold is_ptr, ptr_sub. intros Hp Hn. apply Z.mod_small. lia.
Qed.

Lemma exClass_of_classification (info : siginfo_t) (stackAddr : Z) :
  is_ptr stackAddr ->
  0 <= THREAD_STACK_GUARD_SIZE <= stackAddr ->
  classification (exClass_of THREAD_STACK_GUARD_SIZE (si_addr info) stackAddr)
  = classify_spec (fault_address info) stackAddr THREAD_STACK_GUARD_SIZE.
Proof.
  intros Hb Hg. unfold exClass_of, classify_spec, fault_address.
  rewrite (ptr_sub_exact _ _ Hb Hg).
  destruct (si_addr info =? NULL); [reflexivity |].
  rewrite andb_comm. destruct (_ && _); reflexivity.
Qed.

(** An address that is neither null nor in the guard region is not
    classified. *)
Lemma exClass_of_unclassified (faultAddr stackAddr : Z) :
  is_ptr stackAddr ->
  0 <= THREAD_STACK_GUARD_SIZE <= stackAddr ->
  faultAddr <> NULL ->
  ~ (stackAddr - THREAD_STACK_GUARD_SIZE <= faultAddr < stackAddr) ->
  exClass_of THREAD_STACK_GUARD_SIZE faultAddr stackAddr = None.
Proof.
  intros Hb Hg Hnn Hout. unfold exClass_of.
  rewrite (ptr_sub_exact _ _ Hb Hg).
  apply Z.eqb_neq in Hnn. rewrite Hnn.
  destruct (faultAddr <? stackAddr) eqn:H1; [| reflexivity].
  destruct (stackAddr - THREAD_STACK_GUARD_SIZE <=? faultAddr) eqn:H2;
    [| reflexivity].
  apply Z.ltb_lt in H1. apply Z.leb_le in H2. lia.
Qed.

(** A stack that started less than the guard size above address 0 would
    make the subtraction of line 130 wrap; the test then holds for no
    address. *)
Lemma exClass_of_wrapped (faultAddr stackAddr : Z) :
  is_ptr faultAddr -> is_ptr stackAddr ->
  stackAddr < THREAD_STACK_GUARD_SIZE <= ptr_modulus ->
  faultAddr <> NULL ->
  exClass_of THREAD_STACK_GUARD_SIZE faultAddr stackAddr = None.
Proof.
  unfold is_ptr, exClass_of, ptr_sub.
  assert (Hm : ptr_modulus = 4294967296) by reflexivity. rewrite Hm.
  intros Ha Hb Hg Hnn.
  apply Z.eqb_neq in Hnn. rewrite Hnn.
  destruct (faultAddr <? stackAddr) eqn:H1; [| reflexivity].
  apply Z.ltb_lt in H1.
  replace ((stackAddr - THREAD_STACK_GUARD_SIZE) mod 4294967296)
    with (stackAddr - THREAD_STACK_GUARD_SIZE + 4294967296).
  - destruct (_ <=? faultAddr) eqn:H2; [| reflexivity].
    apply Z.leb_le in H2. lia.
  - symmetry.
    rewrite <- (Z.mod_add _ 1 4294967296) by lia.
    rewrite Z.mul_1_l. apply Z.mod_small. lia.
Qed.

End Classification.

Section HandlerTraces.

Variable target : Target.
Variable THREAD_STACK_GUARD_SIZE : Z.
Variable PTR_TO_LONG : Z -> Z.

#[local] Abbreviation handler :=
  (signalHandler target THREAD_STACK_GUARD_SIZE PTR_TO_LONG).

#[local] Arguments redeliver : simpl never.

(** Whatever becomes of the translation, the allocation is the first call
    after the enquiries, and the only allocation. *)
Lemma trace_classified (w : World) (signum : Z) (info : siginfo_t)
    (ctx : ucontext_t) (env : Z) (e : Env) (c : Class) :
  classifies THREAD_STACK_GUARD_SIZE w info env e c ->
  exists rest,
    trace target (handler signum info ctx) w
    = [Ev rvmGetEnv; Ev (rvmIsNonNativeFrame env); Ev (get_stackAddr env);
       Ev (rvmAllocateObject env c)] ++ rest
    /\ allocations rest = [].
Proof.
  intros (Hcur & Hnn & Hm & He & Hc).
  unfold trace, signalHandler.
  cbn. rewrite Hcur. apply Z.eqb_neq in Hnn. rewrite Hnn. cbn.
  rewrite Hm. cbn. rewrite He. cbn. rewrite Hc. cbn.
  unfold do_rvmAllocateObject, do_rvmExceptionClear, do_rvmCaptureCallStack,
    do_rvmSetLongInstanceFieldValue, do_rvmRaiseException.
  destruct (allocation (oracle w) =? NULL) eqn:Ha; cbn; rewrite ?Ha; cbn.
  all: repeat first
    [ rewrite run_redeliver
    | rewrite He
    | rewrite lookup_insert_eq
    | progress cbn
    | progress unfold do_rvmExceptionClear, do_rvmCaptureCallStack,
        do_rvmSetLongInstanceFieldValue, do_rvmRaiseException
    | match goal with
      | |- context [stackStateField ?x] => destruct (stackStateField x) eqn:?
      | |- context [heap ?x !! ?k] => destruct (heap x !! k) eqn:?
      | |- context [if ?b then _ else _] => destruct b eqn:?
      end ].
  all: eexists; split; reflexivity.
Qed.

(** On a classified fault the handler always comes to the store of line
    144, and makes no other store. *)
Lemma trace_classified_store (w : World) (signum : Z) (info : siginfo_t)
    (ctx : ucontext_t) (env : Z) (e : Env) (c : Class) :
  classifies THREAD_STACK_GUARD_SIZE w info env e c ->
  exists rest,
    trace target (handler signum info ctx) w
    = [Ev rvmGetEnv; Ev (rvmIsNonNativeFrame env); Ev (get_stackAddr env);
       Ev (rvmAllocateObject env c)]
      ++ (if allocation (oracle w) =? NULL
          then [Ev (rvmExceptionClear env)] else [])
      ++ [Ev (rvmCaptureCallStack env (fakeFrame target ctx));
          Ev get_stackStateField;
          Ev (rvmSetLongInstanceFieldValue env (thrown_object w e)
                (stackStateField w)
                (PTR_TO_LONG (next_callstack (oracle w))))]
      ++ rest
    /\ field_stores rest = [] /\ captures rest = [] /\ allocations rest = [].
Proof.
  intros (Hcur & Hnn & Hm & He & Hc).
  unfold trace, signalHandler, thrown_object, fakeFrame.
  cbn. rewrite Hcur. apply Z.eqb_neq in Hnn. rewrite Hnn. cbn.
  rewrite Hm. cbn. rewrite He. cbn. rewrite Hc. cbn.
  unfold do_rvmAllocateObject.
  destruct (allocation (oracle w) =? NULL) eqn:Ha; cbn; rewrite ?Ha; cbn.
  all: unfold do_rvmExceptionClear, do_rvmCaptureCallStack; rewrite ?He; cbn.
  all: destruct (next_callstack (oracle w) =? NULL) eqn:Hcs;
    [apply Z.eqb_eq in Hcs; rewrite ?Hcs |]; cbn.
  all: repeat first
    [ rewrite run_redeliver
    | rewrite He
    | rewrite lookup_insert_eq
    | progress cbn
    | progress unfold do_rvmSetLongInstanceFieldValue, do_rvmRaiseException
    | match goal with
      | |- context [match stackStateField ?x with _ => _ end] =>
          destruct (stackStateField x) eqn:?
      | |- context [match heap ?x !! ?k with _ => _ end] =>
          destruct (heap x !! k) eqn:?
      | |- context [if raise_returns ?x then _ else _] =>
          destruct (raise_returns x) eqn:?
      end ].
  all: eexists; split; [reflexivity | repeat split].
Qed.

Lemma run_unreadable (w : World) (signum : Z) (info : siginfo_t)
    (ctx : ucontext_t) :
  current_env w <> NULL ->
  top_frame_managed (oracle w) = true ->
  envs w !! current_env w = None ->
  run target (handler signum info ctx) w
  = ([Ev rvmGetEnv; Ev (rvmIsNonNativeFrame (current_env w));
      Ev (get_stackAddr (current_env w))], Crashed w).
Proof.
  intros Hnn Hm He. unfold signalHandler. cbn.
  apply Z.eqb_neq in Hnn. rewrite Hnn. cbn. rewrite Hm. cbn. rewrite He.
  reflexivity.
Qed.

(** Every world is on one of the three paths. *)
Lemma handler_paths (w : World) (info : siginfo_t) :
  declines THREAD_STACK_GUARD_SIZE w info
  \/ (current_env w <> NULL /\ top_frame_managed (oracle w) = true
      /\ envs w !! current_env w = None)
  \/ exists e c, classifies THREAD_STACK_GUARD_SIZE w info (current_env w) e c.
Proof.
  unfold declines, classifies.
  destruct (Z.eq_dec (current_env w) NULL) as [H | H]; [now left; left |].
  destruct (top_frame_managed (oracle w)) eqn:Hm; [| now left; right; left].
  destruct (envs w !! current_env w) as [e |] eqn:He; [| now right; left].
  destruct (exClass_of THREAD_STACK_GUARD_SIZE (si_addr info)
              (stackAddr (currentThread e))) as [c |] eqn:Hc.
  - right; right. exists e, c. auto.
  - left; right; right. eauto 10.
Qed.

End HandlerTraces.

(** ** What the records of the paths contain *)

Lemma enquiries_quiet (w : World) :
  allocations (enquiries w) = [] /\ raises (enquiries w) = []
  /\ kills (enquiries w) = [] /\ sigactions (enquiries w) = []
  /\ field_stores (enquiries w) = [] /\ captures (enquiries w) = [].
Proof.
  unfold enquiries.
  destruct (current_env w =? NULL); [repeat split |].
  destruct (top_frame_managed (oracle w)); repeat split.
Qed.

Lemma declined_record (w : World) (signum : Z) :
  let t := enquiries w ++ redeliver_events signum in
  allocations t = [] /\ raises t = []
  /\ kills t = [(0, signum)]
  /\ sigactions t = [(signum, default_sigaction)].
Proof.
  destruct (enquiries_quiet w) as (Ha & Hr & Hk & Hs & _).
  intros t; subst t. unfold allocations, raises, kills, sigactions in *.
  rewrite !flat_map_app, Ha, Hr, Hk, Hs. repeat split.
Qed.

Lemma after_redeliver_sent (w : World) (signum : Z) :
  sent (after_redeliver signum w) = sent w ++ [(0, signum)].
Proof.
  unfold after_redeliver.
  destruct (sigaction_fault (oracle w) signum); reflexivity.
Qed.

Lemma after_redeliver_default (w : World) (signum : Z) :
  sigaction_fault (oracle w) signum = None ->
  disposition (after_redeliver signum w) signum = SIG_DFL
  /\ deliver (after_redeliver signum w) signum = default_action.
Proof.
  intros H. unfold deliver, disposition, after_redeliver. rewrite H. cbn.
  rewrite lookup_insert_eq. split; reflexivity.
Qed.

Section Translation.

Variable target : Target.
Variable THREAD_STACK_GUARD_SIZE : Z.
Variable PTR_TO_LONG : Z -> Z.

Lemma translation_record (w : World) (env : Z) (e : Env) (c : Class)
    (ctx : ucontext_t) (fld : InstanceField) :
  let t := enquiries w ++ translation_events target PTR_TO_LONG w env e c ctx fld in
  allocations t = [c]
  /\ raises t = [thrown_object w e]
  /\ field_stores t
     = [(thrown_object w e, Some fld, PTR_TO_LONG (next_callstack (oracle w)))]
  /\ captures t = [fakeFrame target ctx]
  /\ kills t = [] /\ sigactions t = [].
Proof.
  destruct (enquiries_quiet w) as (Ha & Hr & Hk & Hs & Hf & Hc).
  intros t; subst t.
  unfold allocations, raises, kills, sigactions, field_stores, captures in *.
  rewrite !flat_map_app, Ha, Hr, Hk, Hs, Hf, Hc.
  unfold translation_events.
  destruct (allocation (oracle w) =? NULL); repeat split.
Qed.

Lemma after_redeliver_runtime (w : World) (signum : Z) :
  heap (after_redeliver signum w) = heap w
  /\ callstacks (after_redeliver signum w) = callstacks w
  /\ envs (after_redeliver signum w) = envs w.
Proof.
  unfold after_redeliver.
  destruct (sigaction_fault (oracle w) signum); repeat split.
Qed.

Lemma raised_world_heap (w : World) (env : Z) (e : Env) (c : Class)
    (ctx : ucontext_t) (fld : InstanceField) (o : Object) :
  heap (raised_world target PTR_TO_LONG w env e c ctx fld o)
  = <[thrown_object w e :=
        with_field (f_name fld) (PTR_TO_LONG (next_callstack (oracle w))) o]>
      (heap (after_allocation w env e c)).
Proof.
  unfold raised_world, after_raise, after_store, after_capture.
  destruct (next_callstack _ =? NULL); reflexivity.
Qed.

Lemma after_allocation_oracle (w : World) (env : Z) (e : Env) (c : Class) :
  oracle (after_allocation w env e c) = oracle w.
Proof.
  unfold after_allocation. destruct (allocation (oracle w) =? NULL); reflexivity.
Qed.

Lemma raised_world_callstacks (w : World) (env : Z) (e : Env) (c : Class)
    (ctx : ucontext_t) (fld : InstanceField) (o : Object) :
  next_callstack (oracle w) <> NULL ->
  callstacks (raised_world target PTR_TO_LONG w env e c ctx fld o)
    !! next_callstack (oracle w)
  = Some (snapshot w (fakeFrame target ctx)).
Proof.
  intros H. unfold raised_world, after_raise, after_store, after_capture, snapshot.
  rewrite !after_allocation_oracle.
  apply Z.eqb_neq in H. rewrite H. cbn. apply lookup_insert_eq.
Qed.

(** How a classified run ends, and the world it ends in. *)
Lemma classified_final_world (w : World) (signum : Z) (info : siginfo_t)
    (ctx : ucontext_t) (env : Z) (e : Env) (c : Class) (fld : InstanceField)
    (o : Object) :
  classifies THREAD_STACK_GUARD_SIZE w info env e c ->
  stackStateField w = Some fld ->
  heap (after_allocation w env e c) !! thrown_object w e = Some o ->
  let w' := final_world
              (outcome target
                 (signalHandler target THREAD_STACK_GUARD_SIZE PTR_TO_LONG
                    signum info ctx) w) in
  heap w' = heap (raised_world target PTR_TO_LONG w env e c ctx fld o)
  /\ callstacks w'
     = callstacks (raised_world target PTR_TO_LONG w env e c ctx fld o).
Proof.
  intros Hc Hf Ho. unfold outcome.
  rewrite (run_classified _ _ _ _ _ _ _ _ _ _ _ _ Hc Hf Ho). cbn zeta.
  destruct (raise_returns (oracle w)); cbn [snd final_world].
  - destruct (after_redeliver_runtime
                (with_stdout
                   (stdout (raised_world target PTR_TO_LONG w env e c ctx fld o)
                    ++ ["foo7
"%string])
                   (raised_world target PTR_TO_LONG w env e c ctx fld o))
                signum) as (H1 & H2 & _).
    rewrite H1, H2. split; reflexivity.
  - split; reflexivity.
Qed.

End Translation.

Section InstallerRecords.

Variable target : Target.

Lemma SIGBUS_not_SIGSEGV : SIGBUS target <> SIGSEGV.
Proof. destruct target; discriminate. Qed.

(** A failed run of the installer throws one internal error, for the code
    of the failure, and registers; it never resets a disposition. *)
Lemma install_record (w : World) (env : Z) (code : positive) :
  registration_failure target w = Some code ->
  internal_errors (install_events target w env) = [Z.pos code]
  /\ Forall (fun sa => sa_handler (snd sa) = signalHandler_ptr)
       (sigactions (install_events target w env)).
Proof.
  unfold registration_failure, install_events, fault_signals.
  destruct target; cbn;
    repeat match goal with
      | |- context [sigaction_fault ?o ?s] =>
          destruct (sigaction_fault o s); cbn
      end;
    try (intros [= ->]; split; [reflexivity | repeat constructor]).
  all: destruct (sigmask_fault (oracle w)); cbn; intros [= ->];
    split; [reflexivity | repeat constructor].
Qed.

(** The handlers registered before the failure are in place when the
    installer returns. *)
Lemma registered_in_place (d : gmap Z struct_sigaction) (w : World) :
  Forall (fun s => sa_handler <$> register target d (registered target w) !! s
                   = Some signalHandler_ptr)
    (registered target w).
Proof.
  unfold registered, register, fault_signals.
  pose proof SIGBUS_not_SIGSEGV as Hne.
  destruct target; cbn in *;
    repeat match goal with
      | |- context [sigaction_fault ?o ?s] =>
          destruct (sigaction_fault o s); cbn
      end;
    repeat constructor;
    rewrite ?lookup_insert_eq; try reflexivity;
    rewrite lookup_insert_ne by (unfold SIGSEGV; lia);
    rewrite lookup_insert_eq; reflexivity.
Qed.

End InstallerRecords.

(** ** What a classified run can raise *)

Section ClassifiedRaises.

Variable target : Target.
Variable THREAD_STACK_GUARD_SIZE : Z.
Variable PTR_TO_LONG : Z -> Z.

#[local] Arguments redeliver : simpl never.



End ClassifiedRaises.

(** ** The claims *)

Section Claims.

Variable target : Target.
Variable THREAD_STACK_GUARD_SIZE : Z.
Variable PTR_TO_LONG : Z -> Z.

#[local] Abbreviation handler :=
  (signalHandler target THREAD_STACK_GUARD_SIZE PTR_TO_LONG).

(** C1.  For a fault delivered while the thread has a runtime environment
    and its current frame is managed, the handler acts on the fault as the
    design classifies it: a null-pointer fault when no faulting address is
    present, else a stack-overflow fault when the address lies in
    [stackBase - guardSize, stackBase), else unhandled.  The guard region is
    a region of the address space: its lower end [stackBase - guardSize] is
    an address. *)
Theorem C1_fault_classification (w : World) (signum : Z) (info : siginfo_t)
    (ctx : ucontext_t) (env : Z) (e : Env) :
  current_env w = env -> env <> NULL ->
  envs w !! env = Some e ->
  top_frame_managed (oracle w) = true ->
  is_ptr (stackAddr (currentThread e)) ->
  0 <= THREAD_STACK_GUARD_SIZE <= stackAddr (currentThread e) ->
  handled_as (trace target (handler signum info ctx) w)
  = classify_spec (fault_address info) (stackAddr (currentThread e))
      THREAD_STACK_GUARD_SIZE.
Proof.
  intros Hcur Hnn He Hm Hb Hg.
  rewrite <- (exClass_of_classification _ _ _ Hb Hg).
  destruct (exClass_of THREAD_STACK_GUARD_SIZE (si_addr info)
              (stackAddr (currentThread e))) as [c |] eqn:Hc.
  - destruct (trace_classified target THREAD_STACK_GUARD_SIZE PTR_TO_LONG
                w signum info ctx env e c) as (rest & -> & _).
    { unfold classifies; auto. }
    reflexivity.
  - unfold trace. rewrite run_declined.
    + cbn. unfold handled_as, enquiries.
      rewrite Hcur. apply Z.eqb_neq in Hnn. rewrite Hnn, Hm. reflexivity.
    + right; right. rewrite Hcur. eauto 10.
Qed.

(** C2.  When the handler declines a fault (no environment for the thread,
    or the current frame is native, or the address is neither null nor in
    the guard region) it raises no exception and asks for no object; it asks
    the operating system for the default disposition of the signal, then
    sends that signal once to the process group, and returns.  Where the
    operating system grants the reset, the signal meets the default
    disposition when it is delivered, so the handler is not entered again. *)
Theorem C2_fallback (w : World) (signum : Z) (info : siginfo_t)
    (ctx : ucontext_t) :
  declines THREAD_STACK_GUARD_SIZE w info ->
  let t := trace target (handler signum info ctx) w in
  raises t = [] /\ allocations t = []
  /\ sigactions t = [(signum, default_sigaction)]
  /\ kills t = [(0, signum)]
  /\ t = enquiries w
         ++ [Ev (sigaction signum default_sigaction); Ev (kill 0 signum)]
  /\ exists w',
       outcome target (handler signum info ctx) w = Returned tt w'
       /\ sent w' = sent w ++ [(0, signum)]
       /\ (sigaction_fault (oracle w) signum = None ->
           disposition w' signum = SIG_DFL
           /\ deliver w' signum = default_action).
Proof.
  intros Hd. unfold trace, outcome.
  rewrite (run_declined _ _ _ _ _ _ _ Hd). cbn [fst snd].
  destruct (declined_record w signum) as (Ha & Hr & Hk & Hs).
  repeat split; try assumption.
  exists (after_redeliver signum w). repeat split.
  - apply after_redeliver_sent.
  - now apply after_redeliver_default.
  - now apply after_redeliver_default.
Qed.

(** C6 (amended).  With stack base 0x1000000 and guard size 0x10000, an
    environment present and the current frame managed: a fault at 0x0 is a
    null-pointer fault and a fault at 0x0FFFF00 a stack-overflow fault; a
    fault at 0x0FFFFF00, which lies above the stack base, and a fault at
    0x2000000 are unhandled and redelivered with the default disposition. *)
Theorem C6_scenario (w : World) (signum : Z) (ctx : ucontext_t) (env : Z)
    (e : Env) :
  current_env w = env -> env <> NULL ->
  envs w !! env = Some e ->
  top_frame_managed (oracle w) = true ->
  stackAddr (currentThread e) = 0x1000000 ->
  let fault a :=
    run target (signalHandler target 0x10000 PTR_TO_LONG signum
                  {| si_addr := a |} ctx) w in
  handled_as (fst (fault 0x0)) = NullPointerFault
  /\ handled_as (fst (fault 0x0FFFF00)) = StackOverflowFault
  /\ forall a, a = 0x0FFFFF00 \/ a = 0x2000000 ->
       handled_as (fst (fault a)) = Unhandled
       /\ raises (fst (fault a)) = []
       /\ sigactions (fst (fault a)) = [(signum, default_sigaction)]
       /\ kills (fst (fault a)) = [(0, signum)]
       /\ snd (fault a) = Returned tt (after_redeliver signum w)
       /\ (sigaction_fault (oracle w) signum = None ->
           deliver (after_redeliver signum w) signum = default_action).
Proof.
  intros Hcur Hnn He Hm Hb fault. subst fault. cbn beta.
  assert (Hc : forall a c, exClass_of 0x10000 a 0x1000000 = Some c ->
            classifies 0x10000 w {| si_addr := a |} env e c).
  { intros a c H. unfold classifies. rewrite Hb. auto. }
  split; [| split].
  - destruct (trace_classified target 0x10000 PTR_TO_LONG w signum
                {| si_addr := 0 |} ctx env e _ (Hc 0 _ eq_refl))
      as (rest & H & _).
    unfold trace in H. rewrite H. reflexivity.
  - destruct (trace_classified target 0x10000 PTR_TO_LONG w signum
                {| si_addr := 0x0FFFF00 |} ctx env e _ (Hc 0x0FFFF00 _ eq_refl))
      as (rest & H & _).
    unfold trace in H. rewrite H. reflexivity.
  - intros a Ha.
    assert (Hd : declines 0x10000 w {| si_addr := a |}).
    { right; right. rewrite Hcur. repeat split; try assumption.
      exists e. split; [assumption |]. rewrite Hb.
      destruct Ha as [-> | ->]; reflexivity. }
    rewrite (run_declined _ _ _ _ _ _ _ Hd). cbn [fst snd].
    destruct (declined_record w signum) as (Hal & Hr & Hk & Hs).
    repeat split; try assumption.
    + unfold handled_as. rewrite Hal. reflexivity.
    + intros Hf. now apply after_redeliver_default.
Qed.

(** C7.  In every run of the handler an allocation, if there is one, is
    the first call after the three enquiries the classification rests on
    (environment, kind of frame, stack base), it is for the class the
    classification has chosen, and it is the only one; a run that declines
    the fault allocates nothing. *)
Theorem C7_classification_before_allocation (w : World) (signum : Z)
    (info : siginfo_t) (ctx : ucontext_t) :
  let t := trace target (handler signum info ctx) w in
  (allocations t = []
   \/ exists env e c rest,
        classifies THREAD_STACK_GUARD_SIZE w info env e c
        /\ (c = java_lang_NullPointerException
            \/ c = java_lang_StackOverflowError)
        /\ t = [Ev rvmGetEnv; Ev (rvmIsNonNativeFrame env);
                Ev (get_stackAddr env); Ev (rvmAllocateObject env c)] ++ rest
        /\ allocations rest = [])
  /\ (declines THREAD_STACK_GUARD_SIZE w info -> allocations t = []).
Proof.
  cbn zeta. split.
  - destruct (handler_paths THREAD_STACK_GUARD_SIZE w info)
      as [Hd | [(Hnn & Hm & He) | (e & c & Hc)]].
    + left. unfold trace. rewrite (run_declined _ _ _ _ _ _ _ Hd).
      apply (declined_record w signum).
    + left. unfold trace. rewrite run_unreadable by assumption. reflexivity.
    + right. exists (current_env w), e, c.
      destruct (trace_classified target _ PTR_TO_LONG w signum info ctx _ _ _ Hc)
        as (rest & Ht & Hr).
      exists rest. split; [exact Hc |].
      split; [| split; assumption].
      destruct Hc as (_ & _ & _ & _ & Hx).
      apply (exClass_of_cases _ _ _ _ Hx).
  - intros Hd. unfold trace. rewrite (run_declined _ _ _ _ _ _ _ Hd).
    apply (declined_record w signum).
Qed.

(** C9.  On a classified fault the handler hands the exception to the raise
    entry point.  If that call returns, the handler goes on: it prints, then
    resets the disposition of the signal to the default and sends the signal
    to the process group, as on the fallback path.  If the call does not
    return, the record ends with the raise: no reset, no signal sent. *)
Theorem C9_raise_returns (w : World) (signum : Z) (info : siginfo_t)
    (ctx : ucontext_t) (env : Z) (e : Env) (c : Class) (fld : InstanceField)
    (o : Object) :
  classifies THREAD_STACK_GUARD_SIZE w info env e c ->
  stackStateField w = Some fld ->
  heap (after_allocation w env e c) !! thrown_object w e = Some o ->
  let t := trace target (handler signum info ctx) w in
  let out := outcome target (handler signum info ctx) w in
  let raised :=
    enquiries w ++ translation_events target PTR_TO_LONG w env e c ctx fld in
  raises t = [thrown_object w e]
  /\ if raise_returns (oracle w)
     then t = raised ++ [Ev (puts "foo7
"); Ev (sigaction signum default_sigaction); Ev (kill 0 signum)]
          /\ exists w', out = Returned tt w'
               /\ sent w' = sent w ++ [(0, signum)]
               /\ (sigaction_fault (oracle w) signum = None ->
                   disposition w' signum = SIG_DFL)
     else t = raised
          /\ sigactions t = [] /\ kills t = []
          /\ exists w', out = Transferred w'
               /\ sent w' = sent w /\ dispositions w' = dispositions w.
Proof.
  intros Hc Hf Ho. unfold trace, outcome.
  rewrite (run_classified _ _ _ _ _ _ _ _ _ _ _ _ Hc Hf Ho). cbn zeta.
  destruct (translation_record target PTR_TO_LONG w env e c ctx fld)
    as (_ & Hr & _ & _ & Hk & Hs).
  destruct (raise_returns (oracle w)); cbn [fst snd].
  - split.
    + rewrite app_assoc. unfold raises in *. rewrite flat_map_app, Hr.
      reflexivity.
    + split; [now rewrite app_assoc |].
      eexists; split; [reflexivity |]. split.
      * rewrite after_redeliver_sent. cbn. unfold raised_world, after_raise,
          after_store, after_capture, after_allocation.
        destruct (next_callstack _ =? NULL), (allocation _ =? NULL); reflexivity.
      * intros H. apply after_redeliver_default.
        unfold raised_world, after_raise, after_store, after_capture,
          after_allocation. cbn.
        destruct (next_callstack _ =? NULL), (allocation _ =? NULL); exact H.
  - repeat split; try assumption.
    eexists; split; [reflexivity |].
    unfold raised_world, after_raise, after_store, after_capture,
      after_allocation.
    destruct (next_callstack _ =? NULL), (allocation _ =? NULL);
      split; reflexivity.
Qed.

(** The effect of the store of line 144 on the heap, when the handle is
    resolved and the object to raise is live. *)
Lemma stack_state_stored (w : World) (signum : Z) (info : siginfo_t)
    (ctx : ucontext_t) (env : Z) (e : Env) (c : Class) (fld : InstanceField)
    (o : Object) :
  classifies THREAD_STACK_GUARD_SIZE w info env e c ->
  stackStateField w = Some fld ->
  heap (after_allocation w env e c) !! thrown_object w e = Some o ->
  let obj := thrown_object w e in
  let v := PTR_TO_LONG (next_callstack (oracle w)) in
  let t := trace target (handler signum info ctx) w in
  let w' := final_world (outcome target (handler signum info ctx) w) in
  field_stores t = [(obj, stackStateField w, v)]
  /\ raises t = [obj]
  /\ captures t = [fakeFrame target ctx]
  /\ (exists o', heap w' !! obj = Some o'
        /\ o_fields o' !! f_name fld = Some v
        /\ (forall name, name <> f_name fld ->
              o_fields o' !! name = o_fields o !! name)
        /\ o_class o' = o_class o /\ o_errno o' = o_errno o)
  /\ (forall other, other <> obj ->
        heap w' !! other = heap (after_allocation w env e c) !! other)
  /\ (allocation (oracle w) = NULL ->
        obj = throwable e /\ heap w !! throwable e = Some o).
Proof.
  intros Hc Hf Ho obj v t w'. subst obj v t w'.
  destruct (classified_final_world target THREAD_STACK_GUARD_SIZE PTR_TO_LONG
              w signum info ctx env e c fld o Hc Hf Ho) as (Hh & _).
  cbn zeta in Hh. rewrite Hh, raised_world_heap. clear Hh.
  assert (Ht : exists more,
             trace target
               (signalHandler target THREAD_STACK_GUARD_SIZE PTR_TO_LONG
                  signum info ctx) w
             = (enquiries w
                ++ translation_events target PTR_TO_LONG w env e c ctx fld)
               ++ more
             /\ field_stores more = [] /\ raises more = []
             /\ captures more = []).
  { unfold trace. rewrite (run_classified _ _ _ _ _ _ _ _ _ _ _ _ Hc Hf Ho).
    cbn zeta. destruct (raise_returns (oracle w)); cbn [fst].
    - eexists. rewrite app_assoc. split; [reflexivity |]. repeat split.
    - exists []. rewrite app_nil_r. repeat split. }
  destruct Ht as (more & -> & Hm1 & Hm2 & Hm3).
  destruct (translation_record target PTR_TO_LONG w env e c ctx fld)
    as (_ & Hr & Hs & Hcap & _).
  unfold field_stores, raises, captures in *.
  set (tr := enquiries w ++ translation_events _ _ _ _ _ _ _ _) in *.
  rewrite !flat_map_app, Hm1, Hm2, Hm3, Hr, Hs, Hcap, Hf.
  repeat split.
  - eexists. split; [apply lookup_insert_eq |]. cbn.
    split; [apply lookup_insert_eq |].
    split; [| split; reflexivity].
    intros name Hn. now apply lookup_insert_ne.
  - intros other Hne. now apply lookup_insert_ne.
  - unfold thrown_object. apply Z.eqb_eq in H. now rewrite H.
  - unfold thrown_object, after_allocation in Ho.
    apply Z.eqb_eq in H. now rewrite H in Ho.
Qed.

(** C10.  On every classified fault the handler makes exactly one store
    into an instance field: into the object it goes on to raise, through
    the cached field handle, of the handle of the call stack it has just
    captured.  Where the handle is resolved and the object is live, the
    field has that value afterwards whatever it held before, also when the
    object is a pending exception that took the place of a failed
    allocation; the other fields and the class of the object, and the
    other objects, are as they were. *)
Theorem C10_only_stack_state (w : World) (signum : Z) (info : siginfo_t)
    (ctx : ucontext_t) (env : Z) (e : Env) (c : Class) :
  classifies THREAD_STACK_GUARD_SIZE w info env e c ->
  let obj := thrown_object w e in
  let v := PTR_TO_LONG (next_callstack (oracle w)) in
  let t := trace target (handler signum info ctx) w in
  let w' := final_world (outcome target (handler signum info ctx) w) in
  field_stores t = [(obj, stackStateField w, v)]
  /\ captures t = [fakeFrame target ctx]
  /\ forall fld o,
       stackStateField w = Some fld ->
       heap (after_allocation w env e c) !! obj = Some o ->
       raises t = [obj]
       /\ (exists o', heap w' !! obj = Some o'
             /\ o_fields o' !! f_name fld = Some v
             /\ (forall name, name <> f_name fld ->
                   o_fields o' !! name = o_fields o !! name)
             /\ o_class o' = o_class o /\ o_errno o' = o_errno o)
       /\ (forall other, other <> obj ->
             heap w' !! other = heap (after_allocation w env e c) !! other)
       /\ (allocation (oracle w) = NULL ->
             obj = throwable e /\ heap w !! throwable e = Some o).
Proof.
  intros Hc obj v t w'. subst obj v t w'.
  destruct (trace_classified_store target THREAD_STACK_GUARD_SIZE PTR_TO_LONG
              w signum info ctx env e c Hc) as (rest & Ht & Hs & Hcap & _).
  split; [| split].
  - rewrite Ht. unfold field_stores in *.
    rewrite !flat_map_app, Hs.
    destruct (allocation (oracle w) =? NULL); reflexivity.
  - rewrite Ht. unfold captures in *.
    rewrite !flat_map_app, Hcap.
    destruct (allocation (oracle w) =? NULL); reflexivity.
  - intros fld o Hf Ho.
    destruct (stack_state_stored w signum info ctx env e c fld o Hc Hf Ho)
      as (_ & Hr & _ & Ho' & Hother & Hsub).
    split; [exact Hr | split; [exact Ho' | split; [exact Hother | exact Hsub]]].
Qed.

(** On a classified fault the handler goes on with the new object, or,
    when the allocation fails, with the exception that is pending on the
    environment, which it takes from there.  With the field handle
    resolved and that object live, the handler raises it, and nothing
    else. *)
Lemma pending_exception_substituted (w : World) (signum : Z) (info : siginfo_t)
    (ctx : ucontext_t) (env : Z) (e : Env) (c : Class) (fld : InstanceField)
    (o : Object) :
  classifies THREAD_STACK_GUARD_SIZE w info env e c ->
  stackStateField w = Some fld ->
  heap (after_allocation w env e c) !! thrown_object w e = Some o ->
  let t := trace target (handler signum info ctx) w in
  raises t = [thrown_object w e]
  /\ (allocation (oracle w) = NULL ->
      thrown_object w e = throwable e
      /\ exists rest,
           t = enquiries w
               ++ Ev (rvmAllocateObject env c)
                  :: Ev (rvmExceptionClear env)
                  :: Ev (rvmCaptureCallStack env (fakeFrame target ctx))
                  :: rest)
  /\ match outcome target (handler signum info ctx) w with
     | Crashed _ => False
     | _ => True
     end.
Proof.
  intros Hc Hf Ho. unfold trace, outcome.
  rewrite (run_classified _ _ _ _ _ _ _ _ _ _ _ _ Hc Hf Ho). cbn zeta.
  destruct (translation_record target PTR_TO_LONG w env e c ctx fld)
    as (_ & Hr & _).
  assert (Hsub : allocation (oracle w) = NULL -> thrown_object w e = throwable e).
  { intros H. unfold thrown_object. apply Z.eqb_eq in H. now rewrite H. }
  destruct (raise_returns (oracle w)); cbn [fst snd].
  - split; [| split; [| exact I]].
    + rewrite app_assoc. unfold raises in *. rewrite flat_map_app, Hr.
      reflexivity.
    + intros H. split; [auto |]. unfold translation_events.
      apply Z.eqb_eq in H. rewrite H. cbn. eexists. reflexivity.
  - split; [exact Hr | split; [| exact I]].
    intros H. split; [auto |]. unfold translation_events.
    apply Z.eqb_eq in H. rewrite H. cbn. eexists. reflexivity.
Qed.

(** The translation of a fault with no faulting address, when the field
    handle is resolved and the object the handler goes on with is live. *)
Lemma null_pointer_translated (w : World) (signum : Z) (info : siginfo_t)
    (ctx : ucontext_t) (env : Z) (e : Env) (fld : InstanceField) (o : Object) :
  current_env w = env -> env <> NULL ->
  top_frame_managed (oracle w) = true ->
  envs w !! env = Some e ->
  si_addr info = NULL ->
  stackStateField w = Some fld ->
  heap (after_allocation w env e java_lang_NullPointerException)
    !! thrown_object w e = Some o ->
  let obj := thrown_object w e in
  let root := {| prev := getFramePointer target ctx;
                 returnAddress := getPC target ctx |} in
  let t := trace target (handler signum info ctx) w in
  let w' := final_world (outcome target (handler signum info ctx) w) in
  allocations t = [java_lang_NullPointerException]
  /\ captures t = [root]
  /\ raises t = [obj]
  /\ (allocation (oracle w) <> NULL ->
      obj = allocation (oracle w)
      /\ o_class <$> heap w' !! obj = Some java_lang_NullPointerException)
  /\ (exists o', heap w' !! obj = Some o'
        /\ o_fields o' !! f_name fld
           = Some (PTR_TO_LONG (next_callstack (oracle w))))
  /\ (next_callstack (oracle w) <> NULL ->
      exists frames,
        callstacks w' !! next_callstack (oracle w) = Some (root :: frames)
        /\ returnAddress root = getPC target ctx).
Proof.
  intros Hcur Hnn Hm He Ha Hf Ho obj root t w'. subst obj root t w'.
 
  assert (Hc : classifies THREAD_STACK_GUARD_SIZE w info env e
                 java_lang_NullPointerException).
  { unfold classifies, exClass_of. rewrite Ha. auto. }
  destruct (classified_final_world target THREAD_STACK_GUARD_SIZE PTR_TO_LONG
              w signum info ctx env e _ fld o Hc Hf Ho) as (Hh & Hcs).
  cbn zeta in Hh, Hcs. rewrite Hh, Hcs, raised_world_heap. clear Hh Hcs.
  assert (Ht : exists more,
             trace target
               (signalHandler target THREAD_STACK_GUARD_SIZE PTR_TO_LONG
                  signum info ctx) w
             = (enquiries w
                ++ translation_events target PTR_TO_LONG w env e
                     java_lang_NullPointerException ctx fld)
               ++ more
             /\ allocations more = [] /\ raises more = []
             /\ captures more = []).
  { unfold trace. rewrite (run_classified _ _ _ _ _ _ _ _ _ _ _ _ Hc Hf Ho).
    cbn zeta. destruct (raise_returns (oracle w)); cbn [fst].
    - eexists. rewrite app_assoc. split; [reflexivity |]. repeat split.
    - exists []. rewrite app_nil_r. repeat split. }
  destruct Ht as (more & -> & Hm1 & Hm2 & Hm3).
  destruct (translation_record target PTR_TO_LONG w env e
              java_lang_NullPointerException ctx fld)
    as (Hal & Hr & _ & Hcap & _).
  unfold allocations, raises, captures in *.
  set (tr := enquiries w ++ translation_events _ _ _ _ _ _ _ _) in *.
  rewrite !flat_map_app, Hm1, Hm2, Hm3, Hr, Hal, Hcap.
  split; [reflexivity |]. split; [reflexivity |]. split; [reflexivity |].
  split; [| split].
  - intros Hok. apply Z.eqb_neq in Hok.
    unfold thrown_object, after_allocation in *. rewrite Hok in *.
    split; [reflexivity |]. rewrite lookup_insert_eq. cbn.
    cbn in Ho. rewrite lookup_insert_eq in Ho. now inversion Ho.
  - eexists. split; [apply lookup_insert_eq |]. cbn. apply lookup_insert_eq.
  - intros Hs.
    rewrite (raised_world_callstacks target PTR_TO_LONG w env e _ ctx fld o Hs).
    unfold snapshot, fakeFrame.
    destruct (size (stack_frames (oracle w))); cbn; eexists; split; reflexivity.
Qed.

(** C4 (amended).  For every fault with no faulting address delivered
    while the current frame is managed, the handler asks for one
    null-pointer exception and captures one stack snapshot, from the
    synthetic frame whose predecessor is the frame pointer of the context
    (ebp, r7) and whose return address is its program counter (eip, pc).
    When the cached field handle is resolved and the object the handler
    goes on with is live, the handler raises that object - the new
    null-pointer exception when the allocation succeeded, the pending
    exception when it failed - with the handle of the snapshot in its
    stack-state field; when the capture succeeds, the synthetic frame is
    the innermost frame of the snapshot. *)
Theorem C4_null_pointer (w : World) (signum : Z) (info : siginfo_t)
    (ctx : ucontext_t) (env : Z) (e : Env) :
  current_env w = env -> env <> NULL ->
  top_frame_managed (oracle w) = true ->
  envs w !! env = Some e ->
  si_addr info = NULL ->
  let obj := thrown_object w e in
  let root := {| prev := getFramePointer target ctx;
                 returnAddress := getPC target ctx |} in
  let t := trace target (handler signum info ctx) w in
  let w' := final_world (outcome target (handler signum info ctx) w) in
  allocations t = [java_lang_NullPointerException]
  /\ captures t = [root]
  /\ prev root = reg_to_ptr (frame_pointer_register target ctx)
  /\ returnAddress root = reg_to_ptr (program_counter_register target ctx)
  /\ forall fld o,
       stackStateField w = Some fld ->
       heap (after_allocation w env e java_lang_NullPointerException) !! obj
       = Some o ->
       raises t = [obj]
       /\ (allocation (oracle w) <> NULL ->
           obj = allocation (oracle w)
           /\ o_class <$> heap w' !! obj = Some java_lang_NullPointerException)
       /\ (allocation (oracle w) = NULL -> obj = throwable e)
       /\ (exists o', heap w' !! obj = Some o'
             /\ o_fields o' !! f_name fld
                = Some (PTR_TO_LONG (next_callstack (oracle w))))
       /\ (next_callstack (oracle w) <> NULL ->
           exists frames,
             callstacks w' !! next_callstack (oracle w) = Some (root :: frames)).
Proof.
  intros Hcur Hnn Hm He Ha obj root t w'. subst obj root t w'.
  assert (Hc : classifies THREAD_STACK_GUARD_SIZE w info env e
                 java_lang_NullPointerException).
  { unfold classifies, exClass_of. rewrite Ha. auto. }
  split; [| split; [| split; [| split]]].
  - destruct (trace_classified target THREAD_STACK_GUARD_SIZE PTR_TO_LONG
                w signum info ctx env e _ Hc) as (rest & Ht & Hr).
    rewrite Ht. unfold allocations in *. rewrite flat_map_app, Hr.
    reflexivity.
  - destruct (trace_classified_store target THREAD_STACK_GUARD_SIZE PTR_TO_LONG
                w signum info ctx env e _ Hc) as (rest & Ht & _ & Hcap & _).
    rewrite Ht. unfold captures in *. rewrite !flat_map_app, Hcap.
    destruct (allocation (oracle w) =? NULL); reflexivity.
  - unfold getFramePointer, frame_pointer_register.
    destruct target; reflexivity.
  - unfold getPC, program_counter_register.
    destruct target; reflexivity.
  - intros fld o Hf Ho.
    destruct (null_pointer_translated w signum info ctx env e fld o
                Hcur Hnn Hm He Ha Hf Ho)
      as (_ & _ & Hr & Hcl & Hfield & Hsnap).
    split; [exact Hr |]. split; [exact Hcl |]. split.
    { intros H0. unfold thrown_object. apply Z.eqb_eq in H0. now rewrite H0. }
    split; [exact Hfield |].
    intros Hcs. destruct (Hsnap Hcs) as (frames & Hfr & _).
    exists frames. exact Hfr.
Qed.

(** C5 (amended).  When a registration of the handler or the capture of the
    mask fails, the installer throws one internal error that carries the OS
    error code (errno of the failed sigaction, or the error number that
    pthread_sigmask returned) and returns failure, but it removes no
    handler: every request it has made of sigaction was a registration of
    the handler, and the handlers registered before the failure are still
    registered when it returns. *)
Theorem C5_install_failure (w : World) (env : Z) (e : Env) (code : positive) :
  envs w !! env = Some e ->
  registration_failure target w = Some code ->
  let t := trace target (installSignalHandlers target env) w in
  let out := outcome target (installSignalHandlers target env) w in
  internal_errors t = [Z.pos code]
  /\ Forall (fun sa => sa_handler (snd sa) = signalHandler_ptr) (sigactions t)
  /\ exists w',
       out = Returned FALSE w'
       /\ (exists e',
             envs w' !! env = Some e'
             /\ throwable e' = error_object (oracle w)
             /\ heap w' !! error_object (oracle w)
                = Some {| o_class := java_lang_InternalError;
                          o_fields := ∅;
                          o_errno := Some (Z.pos code) |})
       /\ dispositions w' = register target (dispositions w) (registered target w)
       /\ Forall (fun s => disposition w' s = signalHandler_ptr)
            (registered target w).
Proof.
  intros He Hfail. unfold trace, outcome.
  rewrite (run_installSignalHandlers target w env e He), Hfail. cbn [fst snd].
  destruct (install_record target w env code Hfail) as (Hi & Hs).
  split; [exact Hi |]. split; [exact Hs |].
  eexists. split; [reflexivity |].
  assert (Ho : oracle (after_registrations target w) = oracle w).
  { unfold after_registrations. destruct (first_fault _ _); reflexivity. }
  assert (Hd : dispositions (after_registrations target w)
               = register target (dispositions w) (registered target w)).
  { unfold after_registrations. destruct (first_fault _ _); reflexivity. }
  unfold after_throw. cbn. rewrite Ho. split; [| split].
  - eexists. split; [apply lookup_insert_eq |].
    split; [reflexivity | apply lookup_insert_eq].
  - exact Hd.
  - unfold disposition. cbn. rewrite Hd.
    eapply Forall_impl;
      [apply (registered_in_place target (dispositions w) w) |].
    intros s Hs'. cbn in Hs'.
    destruct (register target (dispositions w) (registered target w) !! s);
      now inversion Hs'.
Qed.

(** C8.  rvmRestoreSignalMask makes one call to the operating system:
    pthread_sigmask with SIG_SETMASK and the mask stored in the thread of
    the environment.  It returns nothing and throws nothing, whether that
    call succeeds or fails.  When the call succeeds the blocked-signal mask
    of the calling thread is the stored mask, whatever it was before; after
    a successful installation the stored mask is the mask the thread had
    when the installer ran. *)
Theorem C8_restore_mask (w : World) (env : Z) (e : Env) :
  envs w !! env = Some e ->
  let m := signalMask (currentThread e) in
  let t := trace target (rvmRestoreSignalMask target env) w in
  let out := outcome target (rvmRestoreSignalMask target env) w in
  t = [Ev (get_signalMask env);
       Ev (pthread_sigmask (SIG_SETMASK target) (Some m) None)]
  /\ internal_errors t = [] /\ raises t = []
  /\ (exists w',
        out = Returned tt w'
        /\ envs w' = envs w /\ heap w' = heap w
        /\ match sigmask_fault (oracle w) with
           | None => blocked w' = m
           | Some _ => w' = w
           end)
  /\ forall w0 e0,
       envs w0 !! env = Some e0 ->
       registration_failure target w0 = None ->
       envs w !! env
       = envs (final_world
                 (outcome target (installSignalHandlers target env) w0)) !! env ->
       outcome target (installSignalHandlers target env) w0
       = Returned TRUE
           (final_world (outcome target (installSignalHandlers target env) w0))
       /\ m = blocked w0.
Proof.
  intros He m t out. subst m t out. unfold trace, outcome.
  rewrite (run_rvmRestoreSignalMask target w env e He). cbn [fst snd].
  split; [reflexivity |]. split; [reflexivity |]. split; [reflexivity |].
  split.
  - eexists. split; [reflexivity |].
    destruct (sigmask_fault (oracle w)); repeat split.
  - intros w0 e0 He0 Hok.
    rewrite (run_installSignalHandlers target w0 env e0 He0), Hok.
    cbn [fst snd final_world]. intros Hsame. split; [reflexivity |].
    rewrite He in Hsame. unfold after_capture_mask in Hsame. cbn in Hsame.
    rewrite lookup_insert_eq in Hsame. inversion Hsame.
    unfold after_registrations. destruct (first_fault _ _); reflexivity.
Qed.

End Claims.

(** ** The claims at work *)

Lemma C1_witness :
  handled_as (trace Linux_X86 (example_handler 0x0FFFF00) world_managed)
  = classify_spec (Some 0x0FFFF00) 0x1000000 0x10000.
Proof.
  apply (C1_fault_classification Linux_X86 0x10000 (fun p => p) world_managed
           SIGSEGV {| si_addr := 0x0FFFF00 |} example_context 0x100
           (example_env NULL)).
  - reflexivity.
  - discriminate.
  - vm_compute. reflexivity.
  - reflexivity.
  - split; [apply Z.leb_le | apply Z.ltb_lt]; reflexivity.
  - split; apply Z.leb_le; reflexivity.
Defined.

Lemma C2_witness :
  declines 0x10000 world_native {| si_addr := 0x0FFFF00 |}
  /\ raises (trace Linux_X86 (example_handler 0x0FFFF00) world_native) = []
  /\ kills (trace Linux_X86 (example_handler 0x0FFFF00) world_native)
     = [(0, SIGSEGV)].
Proof.
  assert (H : declines 0x10000 world_native {| si_addr := 0x0FFFF00 |}).
  { right; left. split; [discriminate | reflexivity]. }
  split; [exact H |].
  destruct (C2_fallback Linux_X86 0x10000 (fun p => p) world_native SIGSEGV
              {| si_addr := 0x0FFFF00 |} example_context H)
    as (Hr & _ & _ & Hk & _).
  split; [exact Hr | exact Hk].
Defined.


Lemma pending_exception_substituted_example :
  classifies 0x10000 world_out_of_memory {| si_addr := 0x0 |} 0x100
    (example_env 0x9000) java_lang_NullPointerException
  /\ allocation (oracle world_out_of_memory) = NULL
  /\ raises (trace Linux_X86 (example_handler 0x0) world_out_of_memory)
     = [0x9000].
Proof.
  assert (Hc : classifies 0x10000 world_out_of_memory {| si_addr := 0x0 |} 0x100
                 (example_env 0x9000) java_lang_NullPointerException).
  { repeat split; try reflexivity; discriminate. }
  assert (Ho : heap (after_allocation world_out_of_memory 0x100
                       (example_env 0x9000) java_lang_NullPointerException)
                 !! thrown_object world_out_of_memory (example_env 0x9000)
               = Some example_error)
    by (vm_compute; reflexivity).
  split; [exact Hc |]. split; [reflexivity |].
  exact (proj1 (pending_exception_substituted Linux_X86 0x10000 (fun p => p)
                  world_out_of_memory SIGSEGV {| si_addr := 0x0 |}
                  example_context 0x100 (example_env 0x9000)
                  java_lang_NullPointerException stackState example_error
                  Hc eq_refl Ho)).
Defined.

(** C4, as it is worded: with no memory for the exception and an
    out-of-memory error pending, a fault with no faulting address on a
    managed frame raises the pending error, which is no null-pointer
    exception. *)
Lemma C4_counterexample :
  let t := trace Linux_X86 (example_handler 0x0) world_out_of_memory in
  let w' := final_world
              (outcome Linux_X86 (example_handler 0x0) world_out_of_memory) in
  raises t = [0x9000]
  /\ o_class <$> heap w' !! 0x9000 = Some java_lang_OutOfMemoryError
  /\ ~ (exists obj, In obj (raises t)
          /\ o_class <$> heap w' !! obj = Some java_lang_NullPointerException).
Proof.
  cbv zeta. split; [vm_compute; reflexivity |].
  split; [vm_compute; reflexivity |].
  intros (obj & Hin & Hc). vm_compute in Hin.
  destruct Hin as [<- | []]. vm_compute in Hc. discriminate.
Qed.

Lemma C4_witness :
  raises (trace Linux_X86 (example_handler 0x0) world_managed) = [0x5000]
  /\ captures (trace Linux_X86 (example_handler 0x0) world_managed)
     = [{| prev := 0x00FFF000; returnAddress := 0x08048000 |}]
  /\ o_class <$> heap (final_world
                         (outcome Linux_X86 (example_handler 0x0) world_managed))
                   !! 0x5000
     = Some java_lang_NullPointerException
  /\ exists frames,
       callstacks (final_world
                     (outcome Linux_X86 (example_handler 0x0) world_managed))
         !! 0x7000
       = Some ({| prev := 0x00FFF000; returnAddress := 0x08048000 |} :: frames).
Proof.
  assert (Hnn : 0x100 <> NULL) by discriminate.
  assert (Ho : heap (after_allocation world_managed 0x100 (example_env NULL)
                       java_lang_NullPointerException)
                 !! thrown_object world_managed (example_env NULL)
               = Some {| o_class := java_lang_NullPointerException;
                         o_fields := ∅; o_errno := None |})
    by (vm_compute; reflexivity).
  destruct (C4_null_pointer Linux_X86 0x10000 (fun p => p) world_managed
              SIGSEGV {| si_addr := 0x0 |} example_context 0x100
              (example_env NULL) eq_refl Hnn eq_refl eq_refl eq_refl)
    as (_ & Hcap & _ & _ & Hlive).
  destruct (Hlive stackState _ eq_refl Ho) as (Hr & Hcl & _ & _ & Hsnap).
  split; [exact Hr |]. split; [exact Hcap |].
  split; [apply Hcl; discriminate |].
  apply Hsnap. discriminate.
Defined.

(** C5, as it is worded: the capture of the mask fails after the handler
    has been registered for SIGSEGV; the installer reports failure and the
    handler is still registered. *)
Lemma C5_counterexample :
  let out := outcome Linux_X86 (installSignalHandlers Linux_X86 0x100)
               world_mask_fails in
  out = Returned FALSE (final_world out)
  /\ disposition world_mask_fails SIGSEGV = SIG_DFL
  /\ disposition (final_world out) SIGSEGV = signalHandler_ptr.
Proof.
  cbv zeta. split; [| split]; vm_compute; reflexivity.
Qed.

Lemma C5_witness :
  registration_failure Linux_X86 world_mask_fails = Some 22%positive
  /\ internal_errors
       (trace Linux_X86 (installSignalHandlers Linux_X86 0x100) world_mask_fails)
     = [22]
  /\ exists w',
       outcome Linux_X86 (installSignalHandlers Linux_X86 0x100) world_mask_fails
       = Returned FALSE w'
       /\ Forall (fun s => disposition w' s = signalHandler_ptr) [SIGSEGV].
Proof.
  split; [reflexivity |].
  assert (He : envs world_mask_fails !! 0x100 = Some (example_env NULL))
    by (vm_compute; reflexivity).
  destruct (C5_install_failure Linux_X86 world_mask_fails 0x100
              (example_env NULL) 22%positive He eq_refl)
    as (Hi & _ & w' & Ho & _ & _ & Hd).
  split; [exact Hi |]. exists w'. split; [exact Ho | exact Hd].
Defined.

(** C6, as it is worded: the address 0x0FFFFF00 is above the stack base
    0x1000000, and is not classified as a stack overflow. *)
Lemma C6_counterexample :
  stackAddr (currentThread (example_env NULL)) = 0x1000000
  /\ handled_as (trace Linux_X86 (example_handler 0x0FFFFF00) world_managed)
     <> StackOverflowFault.
Proof.
  split; [reflexivity |]. vm_compute. discriminate.
Qed.

Lemma C6_witness :
  handled_as (trace Linux_X86 (example_handler 0x0FFFF00) world_managed)
  = StackOverflowFault
  /\ handled_as (trace Linux_X86 (example_handler 0x0FFFFF00) world_managed)
     = Unhandled
  /\ deliver (after_redeliver SIGSEGV world_managed) SIGSEGV = default_action.
Proof.
  assert (Hnn : 0x100 <> NULL) by discriminate.
  assert (He : envs world_managed !! 0x100 = Some (example_env NULL))
    by (vm_compute; reflexivity).
  destruct (C6_scenario Linux_X86 (fun p => p) world_managed SIGSEGV
              example_context 0x100 (example_env NULL)
              eq_refl Hnn He eq_refl eq_refl)
    as (_ & Hso & Hun).
  split; [exact Hso |].
  destruct (Hun 0x0FFFFF00 (or_introl eq_refl)) as (Hu & _ & _ & _ & _ & Hd).
  split; [exact Hu | apply Hd; reflexivity].
Defined.

Lemma C7_witness :
  declines 0x10000 world_native {| si_addr := 0x0 |}
  /\ allocations (trace Linux_X86 (example_handler 0x0) world_native) = [].
Proof.
  assert (H : declines 0x10000 world_native {| si_addr := 0x0 |}).
  { right; left. split; [discriminate | reflexivity]. }
  split; [exact H |].
  exact (proj2 (C7_classification_before_allocation Linux_X86 0x10000
                  (fun p => p) world_native SIGSEGV {| si_addr := 0x0 |}
                  example_context) H).
Defined.

Lemma C8_witness :
  blocked world_startup = {[ 2 ]}
  /\ blocked world_drifted = {[ 2; 15 ]}
  /\ exists w',
       outcome Linux_X86 (rvmRestoreSignalMask Linux_X86 0x100) world_drifted
       = Returned tt w'
       /\ blocked w' = blocked world_startup.
Proof.
  split; [reflexivity |]. split; [reflexivity |].
  assert (He : envs world_drifted !! 0x100
               = Some (with_signalMask {[ 2 ]} (example_env NULL)))
    by (vm_compute; reflexivity).
  assert (He0 : envs world_startup !! 0x100 = Some (example_env NULL))
    by (vm_compute; reflexivity).
  destruct (C8_restore_mask Linux_X86 world_drifted 0x100 _ He)
    as (_ & _ & _ & (w' & Ho & _ & _ & Hb) & Hi).
  exists w'. split; [exact Ho |].
  destruct (Hi world_startup (example_env NULL) He0 eq_refl eq_refl)
    as (_ & Hm).
  change (sigmask_fault (oracle world_drifted)) with (@None positive) in Hb.
  cbv iota in Hb. rewrite Hb. exact Hm.
Defined.

Lemma C9_witness :
  raises (trace Linux_X86 (example_handler 0x0) world_raise_returns) = [0x5000]
  /\ kills (trace Linux_X86 (example_handler 0x0) world_raise_returns)
     = [(0, SIGSEGV)].
Proof.
  assert (Hc : classifies 0x10000 world_raise_returns {| si_addr := 0x0 |} 0x100
                 (example_env NULL) java_lang_NullPointerException).
  { repeat split; try reflexivity; discriminate. }
  assert (Ho : heap (after_allocation world_raise_returns 0x100
                       (example_env NULL) java_lang_NullPointerException)
                 !! thrown_object world_raise_returns (example_env NULL)
               = Some {| o_class := java_lang_NullPointerException;
                         o_fields := ∅; o_errno := None |})
    by (vm_compute; reflexivity).
  destruct (C9_raise_returns Linux_X86 0x10000 (fun p => p)
              world_raise_returns SIGSEGV {| si_addr := 0x0 |}
              example_context 0x100 (example_env NULL)
              java_lang_NullPointerException stackState _ Hc eq_refl Ho)
    as (Hr & Hgo).
  split; [exact Hr |].
  change (raise_returns (oracle world_raise_returns)) with true in Hgo.
  cbv iota in Hgo. destruct Hgo as (Ht & _).
  unfold example_handler. rewrite Ht. vm_compute. reflexivity.
Defined.

Lemma C10_witness :
  o_fields example_error !! "stackState"%string = Some 0x1111
  /\ raises (trace Linux_X86 (example_handler 0x0) world_out_of_memory)
     = [0x9000]
  /\ exists o',
       heap (final_world
               (outcome Linux_X86 (example_handler 0x0) world_out_of_memory))
         !! 0x9000 = Some o'
       /\ o_fields o' !! "stackState"%string = Some 0x7000.
Proof.
  split; [vm_compute; reflexivity |].
  assert (Hc : classifies 0x10000 world_out_of_memory {| si_addr := 0x0 |} 0x100
                 (example_env 0x9000) java_lang_NullPointerException).
  { repeat split; try reflexivity; discriminate. }
  assert (Ho : heap (after_allocation world_out_of_memory 0x100
                       (example_env 0x9000) java_lang_NullPointerException)
                 !! thrown_object world_out_of_memory (example_env 0x9000)
               = Some example_error)
    by (vm_compute; reflexivity).
  destruct (C10_only_stack_state Linux_X86 0x10000 (fun p => p)
              world_out_of_memory SIGSEGV {| si_addr := 0x0 |}
              example_context 0x100 (example_env 0x9000)
              java_lang_NullPointerException Hc)
    as (_ & _ & Hlive).
  destruct (Hlive stackState example_error eq_refl Ho)
    as (Hr & (o' & Ho' & Hv & _) & _).
  split; [exact Hr |]. exists o'. split; [exact Ho' | exact Hv].
Defined.

(** ** Beyond the claims: what the programs never do *)

Lemma only_calls_bind {A B : Type} (Q : forall X : Type, Call X -> Prop)
    (p : Prog A) (f : A -> Prog B) :
  only_calls Q p -> (forall a, only_calls Q (f a)) -> only_calls Q (bind p f).
Proof.
  intros Hp Hf. induction Hp as [a | X c k Hc Hk IH]; cbn.
  - apply Hf.
  - constructor; [exact Hc | exact IH].
Qed.

(** A property of worlds that every permitted call keeps is kept by the
    whole run, however it ends. *)
Lemma run_keeps (target : Target) {R : Type}
    (Q : forall X : Type, Call X -> Prop) (I : World -> Prop) (p : Prog R) :
  (forall X (c : Call X) w, Q X c -> I w -> I (final_world (exec target c w))) ->
  only_calls Q p ->
  forall w, I w -> I (final_world (outcome target p w)).
Proof.
  intros Hstep Hp. unfold outcome.
  induction Hp as [r | X c k Hc Hk IH]; intros w Hw; cbn.
  - exact Hw.
  - pose proof (Hstep X c w Hc Hw) as H.
    destruct (exec target c w) as [x w1 | w1 | w1]; cbn in H |- *;
      try exact H.
    specialize (IH x w1 H).
    destruct (run target (k x) w1) as [t o]. exact IH.
Qed.

Ltac calls_ok :=
  repeat first
    [ apply only_Ret
    | apply only_Vis; [cbn; auto | intros]
    | apply only_calls_bind; [| intros]
    | match goal with
      | |- only_calls _ (if ?b then _ else _) => destruct b
      | |- only_calls _ (match ?x with _ => _ end) => destruct x
      end
    | progress cbn ].

Lemma signalHandler_calls (target : Target) (G : Z) (P : Z -> Z) (signum : Z)
    (info : siginfo_t) (ctx : ucontext_t) :
  only_calls (handler_call signum) (signalHandler target G P signum info ctx).
Proof.
  unfold signalHandler, redeliver, call. calls_ok.
Qed.

Lemma installSignalHandlers_calls (target : Target) (env : Z) :
  only_calls (installer_call target) (installSignalHandlers target env).
Proof.
  unfold installSignalHandlers, rvmTearDownSignals, call, installer_call,
    fault_signals, handler_action.
  destruct target; calls_ok.
Qed.

Ltac step_cases :=
  repeat first
    [ progress cbn in *
    | progress unfold do_sigaction, do_pthread_sigmask, do_kill, do_puts,
        do_rvmGetEnv, do_rvmIsNonNativeFrame, do_rvmGetInstanceField,
        do_rvmAllocateObject, do_rvmExceptionClear, do_rvmCaptureCallStack,
        do_rvmSetLongInstanceFieldValue, do_rvmRaiseException,
        do_rvmThrowInternalErrorErrno in *
    | match goal with
      | |- context [match ?x with _ => _ end] => destruct x eqn:?
      end ].

(** X1.  Whatever the fault and however the run ends, the handler leaves
    the blocked-signal mask of the thread and the cached field handle as
    they were, and the disposition of every signal but the one it was
    entered for; the disposition of that signal is as it was or the
    default. *)
Theorem signalHandler_confined (target : Target) (G : Z) (P : Z -> Z)
    (w : World) (signum : Z) (info : siginfo_t) (ctx : ucontext_t) :
  let w' := final_world
              (outcome target (signalHandler target G P signum info ctx) w) in
  blocked w' = blocked w
  /\ stackStateField w' = stackStateField w
  /\ (forall s, s <> signum -> disposition w' s = disposition w s)
  /\ (disposition w' signum = disposition w signum
      \/ disposition w' signum = SIG_DFL).
Proof.
  cbv zeta.
  apply (run_keeps target (handler_call signum)
           (fun w1 => blocked w1 = blocked w
                      /\ stackStateField w1 = stackStateField w
                      /\ (forall s, s <> signum ->
                            disposition w1 s = disposition w s)
                      /\ (disposition w1 signum = disposition w signum
                          \/ disposition w1 signum = SIG_DFL))).
  - intros X c w0 Hc (Hb & Hf & Hd & Hs).
    destruct c; try contradiction; step_cases;
      try (split; [exact Hb | split; [exact Hf | split; [exact Hd | exact Hs]]]).
    destruct Hc as [-> Hdfl].
    split; [exact Hb |]. split; [exact Hf |]. unfold disposition in *. cbn.
    split.
    + intros s Hne. rewrite lookup_insert_ne by congruence. apply Hd, Hne.
    + right. rewrite lookup_insert_eq. exact Hdfl.
  - apply signalHandler_calls.
  - repeat split. now left.
Qed.

(** X2.  Whatever fails and however the run ends, the installer leaves the
    blocked-signal mask of the thread as it was, sends no signal, leaves
    the cached field handle and the snapshots as they were, and changes
    the disposition of no signal but the fault signals of the target. *)
Theorem installSignalHandlers_confined (target : Target) (w : World) (env : Z) :
  let w' := final_world (outcome target (installSignalHandlers target env) w) in
  blocked w' = blocked w
  /\ sent w' = sent w
  /\ stackStateField w' = stackStateField w
  /\ callstacks w' = callstacks w
  /\ forall s, ~ In s (fault_signals target) ->
       disposition w' s = disposition w s.
Proof.
  cbv zeta.
  apply (run_keeps target (installer_call target)
           (fun w1 => blocked w1 = blocked w
                      /\ sent w1 = sent w
                      /\ stackStateField w1 = stackStateField w
                      /\ callstacks w1 = callstacks w
                      /\ forall s, ~ In s (fault_signals target) ->
                           disposition w1 s = disposition w s)).
  - intros X c w0 Hc (Hb & Hs & Hf & Hcs & Hd).
    destruct c; try contradiction; step_cases; subst;
      try (split; [exact Hb | split; [exact Hs | split; [exact Hf |
             split; [exact Hcs | exact Hd]]]]).
    all: try (match goal with H : Some _ = Some _ |- _ => injection H as <- end;
              split; [exact Hb | split; [exact Hs | split; [exact Hf |
                split; [exact Hcs | exact Hd]]]]).
    destruct Hc as [Hin _].
    split; [exact Hb |]. split; [exact Hs |]. split; [exact Hf |].
    split; [exact Hcs |]. unfold disposition in *. cbn.
    intros s Hnot. rewrite lookup_insert_ne by (intros ->; contradiction).
    apply Hd, Hnot.
  - apply installSignalHandlers_calls.
  - repeat split.
Qed.

(** ** Beyond the claims: the guard region *)

Section Guard.

Variable THREAD_STACK_GUARD_SIZE : Z.

(** X3.  The test of line 130 takes the lower end of the guard region and
    leaves out its upper end: the address [stackAddr - guardSize] and the
    address just below the stack base are stack overflows, the stack base
    itself and the address just below the guard region are not classified.
    A guard region that starts at address 0 gives the null test of line 127
    precedence: address 0 is a null pointer. *)
Theorem guard_region_bounds (stackAddr : Z) :
  is_ptr stackAddr ->
  0 < THREAD_STACK_GUARD_SIZE <= stackAddr ->
  let lowest := stackAddr - THREAD_STACK_GUARD_SIZE in
  (lowest <> NULL ->
   exClass_of THREAD_STACK_GUARD_SIZE lowest stackAddr
   = Some java_lang_StackOverflowError)
  /\ (lowest = NULL ->
      exClass_of THREAD_STACK_GUARD_SIZE lowest stackAddr
      = Some java_lang_NullPointerException)
  /\ (stackAddr - 1 <> NULL ->
      exClass_of THREAD_STACK_GUARD_SIZE (stackAddr - 1) stackAddr
      = Some java_lang_StackOverflowError)
  /\ exClass_of THREAD_STACK_GUARD_SIZE stackAddr stackAddr = None
  /\ (lowest - 1 <> NULL ->
      exClass_of THREAD_STACK_GUARD_SIZE (lowest - 1) stackAddr = None).
Proof.
  intros Hb Hg lowest. subst lowest. unfold exClass_of.
  rewrite (ptr_sub_exact _ _ Hb) by lia. unfold NULL.
  repeat split.
  - intros H. apply Z.eqb_neq in H. rewrite H.
    rewrite (proj2 (Z.ltb_lt _ _)) by lia.
    rewrite (proj2 (Z.leb_le _ _)) by lia. reflexivity.
  - intros H. apply Z.eqb_eq in H. rewrite H. reflexivity.
  - intros H. apply Z.eqb_neq in H. rewrite H.
    rewrite (proj2 (Z.ltb_lt _ _)) by lia.
    rewrite (proj2 (Z.leb_le _ _)) by lia. reflexivity.
  - rewrite (proj2 (Z.eqb_neq _ _)) by lia.
    rewrite Z.ltb_irrefl. reflexivity.
  - intros H. apply Z.eqb_neq in H. rewrite H.
    rewrite (proj2 (Z.leb_gt _ _)) by lia.
    rewrite andb_false_r. reflexivity.
Qed.

(** X4.  With no guard region (size 0), or with a stack base so low that
    [stackAddr - guardSize] wraps around, the test of line 130 holds for no
    address: no fault is taken for a stack overflow. *)
Theorem no_overflow_without_guard (faultAddr stackAddr : Z) :
  is_ptr faultAddr -> is_ptr stackAddr ->
  THREAD_STACK_GUARD_SIZE = 0
  \/ stackAddr < THREAD_STACK_GUARD_SIZE <= ptr_modulus ->
  exClass_of THREAD_STACK_GUARD_SIZE faultAddr stackAddr
  <> Some java_lang_StackOverflowError.
Proof.
  intros Ha Hb [H0 | Hw].
  - unfold exClass_of. rewrite H0, ptr_sub_exact by (unfold is_ptr in *; lia).
    rewrite Z.sub_0_r.
    destruct (faultAddr =? NULL); [discriminate |].
    destruct (faultAddr <? stackAddr) eqn:H1; [| discriminate].
    apply Z.ltb_lt in H1. rewrite (proj2 (Z.leb_gt _ _)) by lia.
    cbn. discriminate.
  - destruct (Z.eq_dec faultAddr NULL) as [-> | Hnn]; [discriminate |].
    rewrite (exClass_of_wrapped _ _ _ Ha Hb Hw Hnn). discriminate.
Qed.

End Guard.

(** ** Beyond the claims: the translation of a fault *)

Section Faults.

Variable target : Target.
Variable THREAD_STACK_GUARD_SIZE : Z.
Variable PTR_TO_LONG : Z -> Z.

#[local] Abbreviation handler :=
  (signalHandler target THREAD_STACK_GUARD_SIZE PTR_TO_LONG).

#[local] Arguments redeliver : simpl never.

(** X5.  A fault at a non-null address in the guard region, on a thread
    with an environment and a managed current frame, with memory for the
    exception and the field handle resolved: the handler asks for one
    StackOverflowError, and raises that new object; the object has the
    class asked for and one field set, its stack state, to the handle of
    the snapshot captured from the frame of the context. *)
Theorem stack_overflow_raised (w : World) (signum : Z) (info : siginfo_t)
    (ctx : ucontext_t) (env : Z) (e : Env) (fld : InstanceField) :
  current_env w = env -> env <> NULL ->
  envs w !! env = Some e ->
  top_frame_managed (oracle w) = true ->
  is_ptr (stackAddr (currentThread e)) ->
  0 <= THREAD_STACK_GUARD_SIZE <= stackAddr (currentThread e) ->
  si_addr info <> NULL ->
  stackAddr (currentThread e) - THREAD_STACK_GUARD_SIZE <= si_addr info
    < stackAddr (currentThread e) ->
  allocation (oracle w) <> NULL ->
  stackStateField w = Some fld ->
  let t := trace target (handler signum info ctx) w in
  let w' := final_world (outcome target (handler signum info ctx) w) in
  allocations t = [java_lang_StackOverflowError]
  /\ captures t = [fakeFrame target ctx]
  /\ raises t = [allocation (oracle w)]
  /\ heap w' !! allocation (oracle w)
     = Some {| o_class := java_lang_StackOverflowError;
               o_fields := {[ f_name fld :=
                                PTR_TO_LONG (next_callstack (oracle w)) ]};
               o_errno := None |}.
Proof.
  intros Hcur Hnn He Hm Hb Hg Ha Hin Halloc Hf t w'. subst t w'.
  assert (Hc : classifies THREAD_STACK_GUARD_SIZE w info env e
                 java_lang_StackOverflowError).
  { unfold classifies, exClass_of. rewrite (ptr_sub_exact _ _ Hb Hg).
    rewrite (proj2 (Z.eqb_neq _ _) Ha).
    rewrite (proj2 (Z.ltb_lt _ _)) by lia.
    rewrite (proj2 (Z.leb_le _ _)) by lia. auto. }
  assert (Hobj : thrown_object w e = allocation (oracle w)).
  { unfold thrown_object. now rewrite (proj2 (Z.eqb_neq _ _) Halloc). }
  assert (Ho : heap (after_allocation w env e java_lang_StackOverflowError)
                 !! thrown_object w e
               = Some {| o_class := java_lang_StackOverflowError;
                         o_fields := ∅; o_errno := None |}).
  { rewrite Hobj. unfold after_allocation.
    rewrite (proj2 (Z.eqb_neq _ _) Halloc). cbn. apply lookup_insert_eq. }
  destruct (classified_final_world target THREAD_STACK_GUARD_SIZE PTR_TO_LONG
              w signum info ctx env e _ fld _ Hc Hf Ho) as (Hh & _).
  cbn zeta in Hh. rewrite Hh, raised_world_heap, Hobj, lookup_insert_eq.
  clear Hh.
  assert (Ht : exists more,
             trace target (handler signum info ctx) w
             = (enquiries w
                ++ translation_events target PTR_TO_LONG w env e
                     java_lang_StackOverflowError ctx fld)
               ++ more
             /\ allocations more = [] /\ raises more = []
             /\ captures more = []).
  { unfold trace. rewrite (run_classified _ _ _ _ _ _ _ _ _ _ _ _ Hc Hf Ho).
    cbn zeta. destruct (raise_returns (oracle w)); cbn [fst].
    - eexists. rewrite app_assoc. split; [reflexivity |]. repeat split.
    - exists []. rewrite app_nil_r. repeat split. }
  destruct Ht as (more & -> & Hm1 & Hm2 & Hm3).
  destruct (translation_record target PTR_TO_LONG w env e
              java_lang_StackOverflowError ctx fld)
    as (Hal & Hr & _ & Hcap & _).
  unfold allocations, raises, captures in *.
  set (tr := enquiries w ++ translation_events _ _ _ _ _ _ _ _) in *.
  rewrite !flat_map_app, Hm1, Hm2, Hm3, Hr, Hal, Hcap, Hobj.
  repeat split.
Qed.

(** X6.  The handler takes the pending exception off the environment only
    when the allocation has failed, and then once; with memory for the
    exception, or on a fault it declines, it leaves the pending exception
    where it is. *)
Theorem pending_taken_only_without_memory (w : World) (signum : Z)
    (info : siginfo_t) (ctx : ucontext_t) :
  let t := trace target (handler signum info ctx) w in
  (forall env e c,
     classifies THREAD_STACK_GUARD_SIZE w info env e c ->
     clears t = if allocation (oracle w) =? NULL then [env] else [])
  /\ (declines THREAD_STACK_GUARD_SIZE w info -> clears t = []).
Proof.
  cbv zeta. split.
  - intros env e c (Hcur & Hnn & Hm & He & Hc).
    unfold trace, signalHandler.
    cbn. rewrite Hcur. apply Z.eqb_neq in Hnn. rewrite Hnn. cbn.
    rewrite Hm. cbn. rewrite He. cbn. rewrite Hc. cbn.
    unfold do_rvmAllocateObject.
    destruct (allocation (oracle w) =? NULL) eqn:Ha; cbn; rewrite ?Ha; cbn.
    all: repeat first
      [ rewrite run_redeliver
      | rewrite He
      | rewrite lookup_insert_eq
      | progress cbn
      | progress unfold do_rvmExceptionClear, do_rvmCaptureCallStack,
          do_rvmSetLongInstanceFieldValue, do_rvmRaiseException
      | match goal with
        | |- context [stackStateField ?x] => destruct (stackStateField x) eqn:?
        | |- context [heap ?x !! ?k] => destruct (heap x !! k) eqn:?
        | |- context [if ?b then _ else _] => destruct b eqn:?
        end ].
    all: reflexivity.
  - intros Hd. unfold trace. rewrite (run_declined _ _ _ _ _ _ _ Hd).
    cbn [fst]. unfold clears, enquiries. rewrite flat_map_app.
    destruct (current_env w =? NULL); [reflexivity |].
    destruct (top_frame_managed (oracle w)); reflexivity.
Qed.

End Faults.

(** ** Beyond the claims: initialisation, installation, restoration *)

Section Setup.

Variable target : Target.

(** X7.  When all registrations and the capture of the mask succeed, the
    installer returns TRUE and throws nothing; every fault signal of the
    target then enters the handler, registered with an empty mask and the
    flags SA_SIGINFO and SA_ONSTACK; the mask stored in the thread is the
    mask the thread has, whatever was stored before; the blocked mask, the
    pending exception and the heap are as they were. *)
Theorem install_success (w : World) (env : Z) (e : Env) :
  envs w !! env = Some e ->
  registration_failure target w = None ->
  let t := trace target (installSignalHandlers target env) w in
  let out := outcome target (installSignalHandlers target env) w in
  internal_errors t = []
  /\ (sa_mask (handler_action target) = Some ∅
      /\ Z.land (sa_flags (handler_action target)) (SA_SIGINFO target)
         = SA_SIGINFO target
      /\ Z.land (sa_flags (handler_action target)) (SA_ONSTACK target)
         = SA_ONSTACK target)
  /\ exists w',
       out = Returned TRUE w'
       /\ Forall (fun s => dispositions w' !! s = Some (handler_action target)
                           /\ deliver w' s = enters_signalHandler)
            (fault_signals target)
       /\ envs w' !! env = Some (with_signalMask (blocked w) e)
       /\ blocked w' = blocked w
       /\ heap w' = heap w.
Proof.
  intros He Hok. unfold trace, outcome.
  rewrite (run_installSignalHandlers target w env e He), Hok. cbn [fst snd].
  unfold registration_failure in Hok.
  destruct (first_fault (sigaction_fault (oracle w)) (fault_signals target))
    as [bad |] eqn:Hff; [discriminate |].
  assert (Hreg : registered target w = fault_signals target).
  { unfold registered. revert Hff. generalize (fault_signals target).
    induction l as [| s l IH]; cbn; [reflexivity |].
    destruct (sigaction_fault (oracle w) s); [discriminate |].
    intros H. now rewrite IH. }
  split.
  { unfold install_events. rewrite Hff, Hok.
    unfold fault_signals. destruct target; cbn;
      repeat match goal with
        | |- context [sigaction_fault ?o ?s] =>
            destruct (sigaction_fault o s) eqn:?; cbn
        end; try reflexivity;
      unfold fault_signals in Hff; cbn in Hff;
      repeat match goal with
        | H : sigaction_fault _ _ = _ |- _ => rewrite H in Hff
        end; discriminate. }
  split.
  { destruct target; repeat split. }
  eexists. split; [reflexivity |].
  unfold after_capture_mask, after_registrations. rewrite Hff, Hreg. cbn.
  split; [| split; [apply lookup_insert_eq | split; reflexivity]].
  pose proof (SIGBUS_not_SIGSEGV target) as Hne.
  unfold deliver, disposition, register, fault_signals. cbn.
  destruct target; cbn in *; repeat constructor;
    rewrite ?lookup_insert_eq; try reflexivity;
    rewrite lookup_insert_ne by (unfold SIGSEGV; lia);
    rewrite lookup_insert_eq; reflexivity.
Qed.

(** X8.  The installer stops at the first failure: it asks for the
    registrations in order, up to and including the first one that fails,
    and asks for the mask of the thread, once, only when all registrations
    succeeded; it throws at most one internal error. *)
Theorem install_stops_at_first_failure (w : World) (env : Z) (e : Env) :
  envs w !! env = Some e ->
  let t := trace target (installSignalHandlers target env) w in
  map fst (sigactions t)
  = take (S (length (registered target w))) (fault_signals target)
  /\ sigmask_calls t
     = match first_fault (sigaction_fault (oracle w)) (fault_signals target) with
       | Some _ => []
       | None => [(0, None, Some env)]
       end
  /\ (length (internal_errors t) <= 1)%nat.
Proof.
  intros He. unfold trace.
  rewrite (run_installSignalHandlers target w env e He). cbn [fst].
  unfold install_events, registered, fault_signals.
  destruct target; cbn;
    repeat match goal with
      | |- context [sigaction_fault ?o ?s] =>
          destruct (sigaction_fault o s); cbn
      end;
    try destruct (sigmask_fault (oracle w)); cbn;
    repeat split; lia.
Qed.

(** X9.  rvmSetupSignals is the installer: in every world it makes the
    same calls, returns the same result and leaves the same world. *)
Theorem rvmSetupSignals_is_installSignalHandlers (w : World) (env : Z) :
  run target (rvmSetupSignals target env) w
  = run target (installSignalHandlers target env) w.
Proof.
  unfold rvmSetupSignals. rewrite run_bind.
  destruct (run target (installSignalHandlers target env) w)
    as [t [ok w' | w' | w']]; try reflexivity.
  destruct ok; cbn; rewrite app_nil_r; reflexivity.
Qed.

(** X11.  Restoring the mask twice is restoring it once: the second call
    makes the same request and leaves the world as the first left it. *)
Theorem rvmRestoreSignalMask_idempotent (w : World) (env : Z) (e : Env) :
  envs w !! env = Some e ->
  let w1 := final_world (outcome target (rvmRestoreSignalMask target env) w) in
  trace target (rvmRestoreSignalMask target env) w1
  = trace target (rvmRestoreSignalMask target env) w
  /\ final_world (outcome target (rvmRestoreSignalMask target env) w1) = w1.
Proof.
  intros He w1. subst w1. unfold trace, outcome.
  rewrite (run_rvmRestoreSignalMask target w env e He). cbn [fst snd final_world].
  destruct (sigmask_fault (oracle w)) eqn:Hf.
  - rewrite (run_rvmRestoreSignalMask target w env e He), Hf.
    split; reflexivity.
  - rewrite (run_rvmRestoreSignalMask target
               (with_blocked (signalMask (currentThread e)) w) env e He).
    cbn. rewrite Hf.
    split; reflexivity.
Qed.

End Setup.

Section Initialisation.

Variable target : Target.
Variable THREAD_STACK_GUARD_SIZE : Z.
Variable PTR_TO_LONG : Z -> Z.

(** X10.  rvmInitSignals returns TRUE exactly when the field stackState of
    Throwable (a long) is resolved; found or not, what the resolution
    returned replaces the cached handle and nothing else changes.  On every
    classified fault taken with that cache the handler makes its store
    through that handle. *)
Theorem init_then_fault (w0 : World) (env0 : Z) :
  let found := resolve_field (oracle w0) java_lang_Throwable "stackState" "J" in
  outcome target (rvmInitSignals env0) w0
  = Returned (match found with Some _ => TRUE | None => FALSE end)
      (with_stackStateField found w0)
  /\ forall w signum info ctx env e c,
       stackStateField w = found ->
       classifies THREAD_STACK_GUARD_SIZE w info env e c ->
       map (fun s => snd (fst s))
         (field_stores
            (trace target
               (signalHandler target THREAD_STACK_GUARD_SIZE PTR_TO_LONG
                  signum info ctx) w))
       = [found].
Proof.
  cbv zeta. split.
  - unfold outcome. now rewrite run_rvmInitSignals.
  - intros w signum info ctx env e c Hf Hc.
    destruct (trace_classified_store target THREAD_STACK_GUARD_SIZE PTR_TO_LONG
                w signum info ctx env e c Hc) as (rest & Ht & Hs & _).
    rewrite Ht. unfold field_stores in *. rewrite !flat_map_app, Hs, Hf.
    destruct (allocation (oracle w) =? NULL); reflexivity.
Qed.

End Initialisation.

(** ** The further properties at work *)

Lemma guard_region_bounds_witness :
  exClass_of 0x10000 0x0FF0000 0x1000000 = Some java_lang_StackOverflowError
  /\ exClass_of 0x10000 0x1000000 0x1000000 = None
  /\ exClass_of 0x10000 0x0FEFFFF 0x1000000 = None.
Proof.
  assert (Hb : is_ptr 0x1000000)
    by (split; [apply Z.leb_le | apply Z.ltb_lt]; reflexivity).
  assert (Hg : 0 < 0x10000 <= 0x1000000)
    by (split; [apply Z.ltb_lt | apply Z.leb_le]; reflexivity).
  destruct (guard_region_bounds 0x10000 0x1000000 Hb Hg)
    as (Hlow & _ & _ & Hbase & Hbelow).
  split; [apply Hlow; discriminate |].
  split; [exact Hbase | apply Hbelow; discriminate].
Defined.

Lemma no_overflow_without_guard_witness :
  exClass_of 0x10000 0x100 0x8000 <> Some java_lang_StackOverflowError
  /\ exClass_of 0 0x0FFFF00 0x1000000 <> Some java_lang_StackOverflowError.
Proof.
  assert (Hp : forall p, (0 <=? p) = true -> (p <? ptr_modulus) = true ->
                 is_ptr p).
  { intros p H1 H2. split; [now apply Z.leb_le | now apply Z.ltb_lt]. }
  split.
  - apply (no_overflow_without_guard 0x10000 0x100 0x8000
             (Hp 0x100 eq_refl eq_refl) (Hp 0x8000 eq_refl eq_refl)).
    right. split; [apply Z.ltb_lt | apply Z.leb_le]; reflexivity.
  - apply (no_overflow_without_guard 0 0x0FFFF00 0x1000000
             (Hp 0x0FFFF00 eq_refl eq_refl) (Hp 0x1000000 eq_refl eq_refl)).
    left. reflexivity.
Defined.

Lemma stack_overflow_raised_witness :
  raises (trace Linux_X86 (example_handler 0x0FFFF00) world_managed) = [0x5000]
  /\ heap (final_world
             (outcome Linux_X86 (example_handler 0x0FFFF00) world_managed))
       !! 0x5000
     = Some {| o_class := java_lang_StackOverflowError;
               o_fields := {[ "stackState"%string := 0x7000 ]};
               o_errno := None |}.
Proof.
  assert (Hnn : 0x100 <> NULL) by discriminate.
  assert (He : envs world_managed !! 0x100 = Some (example_env NULL))
    by (vm_compute; reflexivity).
  assert (Hb : is_ptr (stackAddr (currentThread (example_env NULL))))
    by (split; [apply Z.leb_le | apply Z.ltb_lt]; reflexivity).
  assert (Hg : 0 <= 0x10000 <= stackAddr (currentThread (example_env NULL)))
    by (split; apply Z.leb_le; reflexivity).
  assert (Ha : si_addr {| si_addr := 0x0FFFF00 |} <> NULL) by discriminate.
  assert (Hin : stackAddr (currentThread (example_env NULL)) - 0x10000
                <= si_addr {| si_addr := 0x0FFFF00 |}
                < stackAddr (currentThread (example_env NULL)))
    by (split; [apply Z.leb_le | apply Z.ltb_lt]; reflexivity).
  assert (Hal : allocation (oracle world_managed) <> NULL) by discriminate.
  destruct (stack_overflow_raised Linux_X86 0x10000 (fun p => p) world_managed
              SIGSEGV {| si_addr := 0x0FFFF00 |} example_context 0x100
              (example_env NULL) stackState
              eq_refl Hnn He eq_refl Hb Hg Ha Hin Hal eq_refl)
    as (_ & _ & Hr & Hh).
  split; [exact Hr | exact Hh].
Defined.

Lemma pending_taken_only_without_memory_witness :
  clears (trace Linux_X86 (example_handler 0x0) world_out_of_memory) = [0x100]
  /\ clears (trace Linux_X86 (example_handler 0x0) world_managed) = []
  /\ clears (trace Linux_X86 (example_handler 0x0) world_native) = [].
Proof.
  assert (Hc : forall pending alloc,
             classifies 0x10000
               (running_world (example_oracle None None true alloc false)
                  0x100 pending)
               {| si_addr := 0x0 |} 0x100 (example_env pending)
               java_lang_NullPointerException).
  { intros pending alloc. repeat split; try reflexivity; discriminate. }
  assert (Hd : declines 0x10000 world_native {| si_addr := 0x0 |}).
  { right; left. split; [discriminate | reflexivity]. }
  split; [| split].
  - exact (proj1 (pending_taken_only_without_memory Linux_X86 0x10000
                    (fun p => p) world_out_of_memory SIGSEGV
                    {| si_addr := 0x0 |} example_context)
             _ _ _ (Hc 0x9000 NULL)).
  - exact (proj1 (pending_taken_only_without_memory Linux_X86 0x10000
                    (fun p => p) world_managed SIGSEGV
                    {| si_addr := 0x0 |} example_context)
             _ _ _ (Hc NULL 0x5000)).
  - exact (proj2 (pending_taken_only_without_memory Linux_X86 0x10000
                    (fun p => p) world_native SIGSEGV
                    {| si_addr := 0x0 |} example_context) Hd).
Defined.

Lemma install_success_witness :
  exists w',
    outcome Darwin_X86 (installSignalHandlers Darwin_X86 0x100)
      (darwin_startup None)
    = Returned TRUE w'
    /\ Forall (fun s => deliver w' s = enters_signalHandler) [10; 11]
    /\ signalMask <$> (currentThread <$> envs w' !! 0x100) = Some {[ 2 ]}.
Proof.
  assert (He : envs (darwin_startup None) !! 0x100 = Some (example_env NULL))
    by (vm_compute; reflexivity).
  destruct (install_success Darwin_X86 (darwin_startup None) 0x100
              (example_env NULL) He eq_refl)
    as (_ & _ & w' & Ho & Hd & Hm & _).
  exists w'. split; [exact Ho |]. split.
  - eapply Forall_impl; [exact Hd |]. intros s Hs. exact (proj2 Hs).
  - rewrite Hm. reflexivity.
Defined.

Lemma install_stops_at_first_failure_witness :
  map fst (sigactions
             (trace Darwin_X86 (installSignalHandlers Darwin_X86 0x100)
                (darwin_startup (Some 22%positive))))
  = [10; 11]
  /\ sigmask_calls
       (trace Darwin_X86 (installSignalHandlers Darwin_X86 0x100)
          (darwin_startup (Some 22%positive)))
     = [].
Proof.
  assert (He : envs (darwin_startup (Some 22%positive)) !! 0x100
               = Some (example_env NULL))
    by (vm_compute; reflexivity).
  destruct (install_stops_at_first_failure Darwin_X86
              (darwin_startup (Some 22%positive)) 0x100 (example_env NULL) He)
    as (Hs & Hm & _).
  split; [exact Hs | exact Hm].
Defined.

Lemma init_then_fault_witness :
  outcome Linux_X86 (rvmInitSignals 0x100)
    (with_stackStateField None world_startup)
  = Returned TRUE world_startup
  /\ map (fun s => snd (fst s))
       (field_stores (trace Linux_X86 (example_handler 0x0) world_managed))
     = [Some stackState].
Proof.
  assert (Hc : classifies 0x10000 world_managed {| si_addr := 0x0 |} 0x100
                 (example_env NULL) java_lang_NullPointerException).
  { repeat split; try reflexivity; discriminate. }
  destruct (init_then_fault Linux_X86 0x10000 (fun p => p)
              (with_stackStateField None world_startup) 0x100)
    as (Ho & Hstore).
  split; [exact Ho |].
  exact (Hstore world_managed SIGSEGV {| si_addr := 0x0 |} example_context
           0x100 (example_env NULL) java_lang_NullPointerException
           eq_refl Hc).
Defined.

Lemma rvmRestoreSignalMask_idempotent_witness :
  blocked
    (final_world
       (outcome Linux_X86 (rvmRestoreSignalMask Linux_X86 0x100)
          (final_world
             (outcome Linux_X86 (rvmRestoreSignalMask Linux_X86 0x100)
                world_drifted))))
  = blocked
      (final_world
         (outcome Linux_X86 (rvmRestoreSignalMask Linux_X86 0x100)
            world_drifted)).
Proof.
  assert (He : envs world_drifted !! 0x100
               = Some (with_signalMask {[ 2 ]} (example_env NULL)))
    by (vm_compute; reflexivity).
  destruct (rvmRestoreSignalMask_idempotent Linux_X86 world_drifted 0x100 _ He)
    as (_ & Hw).
  cbv zeta in Hw. rewrite Hw. reflexivity.
Defined.
